(** * Galaxy Watch Performance System: date-range core

    A shallow embedding of the three helpers of [galaxy_dashboard.py] that
    carry the date logic of the dashboard, and of the top-level script that
    calls them:

    - [get_available_date_range] (lines 28-39), the range computer;
    - [validate_date_range] (lines 42-81), the range validator;
    - [filter_dates] (lines 117-123), the date filter;
    - [main] (lines 152-180), the script from the bounds to the filtering,
      with the two date pickers of lines 161-162.

    Of the dashboards it embeds what is computed before a chart is drawn:
    [role_header] (lines 83-87) with [ROLE_THEME], [metric_row] (lines
    112-115) with the athlete's three metrics (lines 193-197), the heart
    rate zones of the trainer (lines 224-232) and the blood oxygen alert of
    the team doctor (lines 252-253).

    Pandas objects are modelled by what the script observes of them: a
    DataFrame is the ordered list of its rows, a Series the list of its
    values, a boolean mask a list of booleans.  A timestamp is tz-naive or
    carries its UTC offset: timestamps are ordered as instants and dated by
    the wall clock, and a tz-naive one is not comparable with a tz-aware
    one.  Streamlit calls are recorded in a log, [st.stop()] ends the run,
    and so does an exception. *)

From Stdlib Require Import ZArith QArith Qminmax Lia Lqa.
From stdpp Require Import base option list strings gmap.

Open Scope Z_scope.

(** ** Instants and calendar dates *)

(** A [pd.Timestamp] is tz-naive or tz-aware.  A tz-naive timestamp
    ([tz = None]) is a wall-clock reading, and [clock] counts its
    nanoseconds since 1970-01-01 00:00.  A tz-aware timestamp
    ([tz = Some off]) is an instant: [clock] counts the nanoseconds since
    the epoch in UTC and [off] is the UTC offset, in nanoseconds, of the
    zone it is shown in.  Following section 3 of the specification, the
    timestamp column of a loaded frame holds valid values only (no [NaT]);
    it has one datetime dtype, so its values are all tz-naive or all
    tz-aware. *)
Record Timestamp : Type := mkTimestamp {
  clock : Z;
  tz : option Z
}.

Definition naive (w : Z) : Timestamp := mkTimestamp w None.

(** What the clock on the wall shows, in nanoseconds since
    1970-01-01 00:00 on that clock. *)
Definition wall (t : Timestamp) : Z := clock t + default 0 (tz t).

(** [a < b].  Two tz-aware timestamps are compared as instants, two
    tz-naive ones as wall-clock readings; [comparable] tells whether Python
    compares the two at all: a tz-naive and a tz-aware timestamp are not
    ordered, and comparing them raises [TypeError]. *)
Definition earlier (a b : Timestamp) : bool := clock a <? clock b.

Definition comparable (a b : Timestamp) : bool :=
  match tz a, tz b with
  | Some _, Some _ | None, None => true
  | _, _ => false
  end.

(** A [datetime.date] is represented by its day number (days since
    1970-01-01); Python orders dates as it orders these numbers. *)
Definition Date : Type := Z.

Definition ns_per_day : Z := 86400000000000.

(** [Timestamp.date()] and [Series.dt.date]: the day that the wall clock
    shows; the time of day and the zone are dropped.  [Z.div] rounds
    towards minus infinity, so readings before 1970 land on the right day
    too. *)
Definition date (t : Timestamp) : Date := wall t / ns_per_day.

(** The wall-clock reading at which a day starts. *)
Definition day_start (d : Date) : Z := d * ns_per_day.

(** ** Frames *)

(** A row carries its index label, its timestamp and its other columns. *)
Record Row (Cell : Type) : Type := mkRow {
  label : nat;
  timestamp : Timestamp;
  cells : list (string * Cell)
}.

Arguments mkRow {Cell} _ _ _.
Arguments label {Cell} _.
Arguments timestamp {Cell} _.
Arguments cells {Cell} _.

(** A frame is the list of its rows, in index order. *)
Abbreviation DataFrame Cell := (list (Row Cell)) (only parsing).

(** ** The Streamlit script monad *)

(** The two kinds of call the date logic makes on the page.  The HTML block
    of lines 52-74 is a fixed template with two holes, [min_date] and
    [max_date]; the second is printed as it is, also when it is [None]. *)
Inductive StCall : Type :=
  | st_error (msg : string)
  | st_markdown_date_range_error (min_date : Date) (max_date : option Date).

Inductive PyError : Type :=
  | TypeError
  | StreamlitAPIException.

(** How a piece of the script ends: it returns, it calls [st.stop()], or it
    raises. *)
Inductive Outcome (A : Type) : Type :=
  | Returned (a : A)
  | Stopped
  | Raised (e : PyError).

Arguments Returned {A} a.
Arguments Stopped {A}.
Arguments Raised {A} e.

Definition Script (A : Type) : Type := list StCall → Outcome A * list StCall.

Definition bind {A B} (k : A → Script B) (m : Script A) : Script B :=
  λ log,
    match m log with
    | (Returned a, log') => k a log'
    | (Stopped, log') => (Stopped, log')
    | (Raised e, log') => (Raised e, log')
    end.

#[global] Instance script_ret : MRet Script := λ A a log, (Returned a, log).
#[global] Instance script_bind : MBind Script := @bind.

Definition emit (c : StCall) : Script unit := λ log, (Returned tt, log ++ [c]).

Definition st_stop {A} : Script A := λ log, (Stopped, log).

Definition raise {A} (e : PyError) : Script A := λ log, (Raised e, log).

(** A call that shows nothing on the page: its value, or its exception. *)
Definition lift {A} (r : PyError + A) : Script A :=
  λ log,
    match r with
    | inl e => (Raised e, log)
    | inr a => (Returned a, log)
    end.

(** Running a script on a fresh page. *)
Definition run {A} (m : Script A) : Outcome A * list StCall := m [].

(** ** Pandas and Python primitives *)

(** One step of a minimum and of a maximum: the value kept so far gives way
    only to a strictly earlier, respectively strictly later, one, so that of
    several equal extrema the first is kept. *)
Definition keep_min (cur x : Timestamp) : Timestamp :=
  if earlier x cur then x else cur.

Definition keep_max (cur x : Timestamp) : Timestamp :=
  if earlier cur x then x else cur.

(** [Series.min] and [Series.max] of a timestamp column: the first element,
    then the rest is folded in.  Within one column every two values are
    comparable.  [None] stands for what the source never asks for, the
    extremum of nothing. *)
Definition list_min (s : list Timestamp) : option Timestamp :=
  match s with
  | [] => None
  | t :: ts => Some (foldl keep_min t ts)
  end.

Definition list_max (s : list Timestamp) : option Timestamp :=
  match s with
  | [] => None
  | t :: ts => Some (foldl keep_max t ts)
  end.

(** Python's [min] and [max] of a list [cur :: rest] whose members may come
    from different columns: each member in turn is compared with the value
    kept so far, and the comparison of a tz-naive with a tz-aware timestamp
    raises. *)
Fixpoint py_min (cur : Timestamp) (rest : list Timestamp)
    : PyError + Timestamp :=
  match rest with
  | [] => inr cur
  | x :: rest' =>
      if comparable x cur then py_min (keep_min cur x) rest'
      else inl TypeError
  end.

Fixpoint py_max (cur : Timestamp) (rest : list Timestamp)
    : PyError + Timestamp :=
  match rest with
  | [] => inr cur
  | x :: rest' =>
      if comparable x cur then py_max (keep_max cur x) rest'
      else inl TypeError
  end.

(** [s >= d] and [s <= d] on a series of dates. *)
Definition series_ge (s : list Date) (d : Date) : list bool :=
  (λ x, x >=? d) <$> s.

Definition series_le (s : list Date) (d : Date) : list bool :=
  (λ x, x <=? d) <$> s.

(** [a & b] on two masks over the same index. *)
Definition series_and (a b : list bool) : list bool := zip_with andb a b.

(** [df[mask]]: the rows whose mask entry is [True], in the frame's order. *)
Fixpoint getitem_mask {A} (df : list A) (mask : list bool) : list A :=
  match df, mask with
  | r :: df', b :: mask' =>
      if b then r :: getitem_mask df' mask' else getitem_mask df' mask'
  | _, _ => []
  end.

Section Dashboard.
Context {Cell : Type}.

Implicit Types (df : DataFrame Cell) (r : Row Cell).

(** [df["timestamp"]], [s.dt.date] and [df.empty]. *)
Definition col_timestamp df : list Timestamp := timestamp <$> df.

Definition dt_date (s : list Timestamp) : list Date := date <$> s.

Definition empty df : bool :=
  match df with
  | [] => true
  | _ :: _ => false
  end.

(** ** Range computer (lines 28-39) *)

(** One turn of the loop over [dfs]: a frame that is present and not empty
    appends its least and greatest timestamp to [valid_dates]. *)
Definition collect_step (valid_dates : list Timestamp)
    (d : option (DataFrame Cell)) : list Timestamp :=
  match d with
  | None => valid_dates
  | Some df =>
      if empty df then valid_dates
      else
        match list_min (col_timestamp df), list_max (col_timestamp df) with
        | Some lo, Some hi => valid_dates ++ [lo; hi]
        | _, _ => valid_dates
        end
  end.

Definition collect (dfs : list (option (DataFrame Cell))) : list Timestamp :=
  foldl collect_step [] dfs.

(** The result is the pair of line 37 or of line 39, or the exception of
    [min] or [max]; [min(valid_dates)] is evaluated before
    [max(valid_dates)]. *)
Definition get_available_date_range (dfs : list (option (DataFrame Cell)))
    : PyError + (option Date * option Date) :=
  match collect dfs with
  | [] => inr (None, None)
  | t :: ts =>
      match py_min t ts with
      | inl err => inl err
      | inr lo =>
          match py_max t ts with
          | inl err => inl err
          | inr hi => inr (Some (date lo), Some (date hi))
          end
      end
  end.

(** ** Range validator (lines 42-81) *)

Definition start_after_end_msg : string :=
  "❌ Start date cannot be after End date.".

(** [end < min_date or start > max_date]: [or] evaluates its right operand
    only when the left one is false, and comparing a date with [None]
    raises. *)
Definition outside (start end_ : Date) (min_date : Date)
    (max_date : option Date) : Script bool :=
  if end_ <? min_date then mret true
  else
    match max_date with
    | Some mx => mret (start >? mx)
    | None => raise TypeError
    end.

Definition validate_date_range (start end_ : Date)
    (min_date max_date : option Date) : Script bool :=
  (match min_date with
   | None => mret false
   | Some mn =>
       if start >? end_ then
         emit (st_error start_after_end_msg) ;; mret false
       else
         out ← outside start end_ mn max_date ;
         if out : bool then
           emit (st_markdown_date_range_error mn max_date) ;; mret false
         else mret true
   end).

(** ** Date filter (lines 117-123) *)

Definition filter_dates (d : option (DataFrame Cell)) (start end_ : Date)
    : option (DataFrame Cell) :=
  match d with
  | None => None
  | Some df =>
      let days := dt_date (col_timestamp df) in
      Some (getitem_mask df
              (series_and (series_ge days start) (series_le days end_)))
  end.

(** ** The script (lines 152-180) *)

Definition no_valid_data_msg : string := "No valid data found.".

(** [st.sidebar.date_input(label, min_value=, max_value=, value=)]: the
    widget refuses a lower limit that is after the upper limit and a
    default [value] outside the limits, and otherwise returns the date
    picked by the user, [picked].  A limit or a default that is [None] is
    not checked. *)
Definition date_input (min_value : Date) (max_value value : option Date)
    (picked : Date) : Script Date :=
  let inverted :=
    match max_value with
    | Some mx => min_value >? mx
    | None => false
    end in
  let outside_limits :=
    match value with
    | Some v =>
        (v <? min_value)
        || match max_value with
           | Some mx => v >? mx
           | None => false
           end
    | None => false
    end in
  if inverted || outside_limits then raise StreamlitAPIException
  else mret picked.

(** [loaded] is the list of the twelve frames in the order of lines 153-154,
    [start_date] and [end_date] the dates picked in the two date pickers.
    The result is the list of the filtered frames handed to the
    dashboards. *)
Definition main (loaded : list (option (DataFrame Cell)))
    (start_date end_date : Date) : Script (list (option (DataFrame Cell))) :=
  (bounds ← lift (get_available_date_range loaded) ;
   let '(min_date, max_date) := bounds : option Date * option Date in
   match min_date with
   | None => emit (st_error no_valid_data_msg) ;; st_stop
   | Some mn =>
       start_date ← date_input mn max_date min_date start_date ;
       end_date ← date_input mn max_date max_date end_date ;
       ok ← validate_date_range start_date end_date min_date max_date ;
       (if ok : bool then mret tt else st_stop) ;;
       mret ((λ d, filter_dates d start_date end_date) <$> loaded)
   end).

End Dashboard.

(** ** The vocabulary of the specification *)

(** The specification speaks of a window, of bounds that may be missing and
    of four validation results.  The definitions below read the source's
    functions through that vocabulary; they add no behaviour. *)
Record DateWindow : Type := mkWindow { w_start : Date; w_end : Date }.

Record GlobalBounds : Type := mkBounds { b_min : Date; b_max : Date }.

Inductive ValidationResult : Type :=
  | Ok
  | InvertedRange
  | OutsideBounds
  | NoData.

(** What a call of [validate_date_range] shows decides the result: [True]
    is [Ok]; [False] after the start-after-end message is [InvertedRange];
    [False] after the date range error block is [OutsideBounds]; a silent
    [False] is [NoData].  Anything else is none of the four. *)
Definition classify (o : Outcome bool * list StCall)
    : option ValidationResult :=
  match o with
  | (Returned true, []) => Some Ok
  | (Returned false, []) => Some NoData
  | (Returned false, [st_error msg]) =>
      if decide (msg = start_after_end_msg) then Some InvertedRange else None
  | (Returned false, [st_markdown_date_range_error _ _]) => Some OutsideBounds
  | _ => None
  end.

Definition validate (w : DateWindow) (bounds : option GlobalBounds)
    : option ValidationResult :=
  classify (run (validate_date_range (w_start w) (w_end w)
                   (b_min <$> bounds) (b_max <$> bounds))).

Section Contracts.
Context {Cell : Type}.

Definition compute_bounds (dfs : list (option (DataFrame Cell)))
    : option GlobalBounds :=
  match get_available_date_range dfs with
  | inr (Some mn, Some mx) => Some (mkBounds mn mx)
  | _ => None
  end.

Definition filter_by_date (d : option (DataFrame Cell)) (w : DateWindow)
    : option (DataFrame Cell) :=
  filter_dates d (w_start w) (w_end w).

(** The calendar date of a row lies in the window, both ends included. *)
Definition in_window (start end_ : Date) (r : Row Cell) : Prop :=
  start ≤ date (timestamp r) ∧ date (timestamp r) ≤ end_.

#[global] Instance in_window_dec start end_ r :
  Decision (in_window start end_ r).
Proof. unfold in_window. apply _. Defined.

(** The date filter as section 4.3 of the specification words it: the rows
    whose date lies in the window, in their original order. *)
Definition filter_by_date_spec (d : option (DataFrame Cell))
    (w : DateWindow) : option (DataFrame Cell) :=
  filter (in_window (w_start w) (w_end w)) <$> d.

(** A dataset that contributes nothing to [valid_dates]: absent or empty. *)
Definition no_data (d : option (DataFrame Cell)) : Prop :=
  d = None ∨ d = Some [].


(** Every timestamp of the collection is shown in the zone [z]: all are
    tz-naive ([z = None]), or all are tz-aware with the UTC offset [off]
    ([z = Some off]). *)
Definition in_zone (z : option Z) (dfs : list (option (DataFrame Cell)))
    : Prop :=
  ∀ df r, Some df ∈ dfs → r ∈ df → tz (timestamp r) = z.

Definition one_zone (dfs : list (option (DataFrame Cell))) : Prop :=
  ∃ z, in_zone z dfs.

(** One optional frame is a subsequence of another. *)
Definition subsequence (a b : option (DataFrame Cell)) : Prop :=
  option_Forall2 sublist a b.

End Contracts.

(** ** Dashboards (lines 18-23, 83-87, 112-115, 186-253) *)

(** A numeric cell is the rational number that the int64 or float64 value
    read from the file denotes. *)

(** What the dashboards put on the page. *)
Inductive Widget : Type :=
  | w_markdown (html : string)
  | w_columns (n : nat)
  | w_metric (column : nat) (label : string) (value : Z)
  | w_error (msg : string)
  | w_bar_chart (title : string) (bars : list (string * nat)).

Inductive DashError : Type :=
  | KeyError (key : string)
  | IndexError
  | InvalidColumnSpec.

(** A frame together with the names of its columns, which an empty frame
    has too. *)
Record Table : Type := mkTable {
  columns : list string;
  rows : DataFrame Q
}.

(** The cell of a row under a column name. *)
Fixpoint cell (c : string) (cs : list (string * Q)) : option Q :=
  match cs with
  | [] => None
  | (k, v) :: cs' => if decide (k = c) then Some v else cell c cs'
  end.

(** [df[c]]: the values of a column, or [KeyError] when the frame has no
    such column.  A row without a cell for one of the columns is no row of
    a frame, and is answered like a missing column. *)
Definition getitem (t : Table) (c : string) : DashError + list Q :=
  if decide (c ∈ columns t) then
    match mapM (λ r, cell c (cells r)) (rows t) with
    | Some s => inr s
    | None => inl (KeyError c)
    end
  else inl (KeyError c).

(** [s.iloc[-1]]. *)
Definition iloc_last (s : list Q) : DashError + Q :=
  match last s with
  | Some x => inr x
  | None => inl IndexError
  end.

(** [int(x)]: the fraction is cut off, towards zero. *)
Definition py_int (x : Q) : Z := Z.quot (Qnum x) (Z.pos (Qden x)).

(** [s.min()], with [None] for the missing value that the minimum of an
    empty series is. *)
Definition series_min (s : list Q) : option Q :=
  match s with
  | [] => None
  | x :: xs => Some (foldl Qmin x xs)
  end.

Definition Qlt_bool (x y : Q) : bool := negb (Qle_bool y x).

(** [filter_dates] on a frame with its header: the rows are filtered, the
    columns stay. *)
Definition table_filter_dates (t : option Table) (start end_ : Date)
    : option Table :=
  match t with
  | None => None
  | Some tb =>
      match filter_dates (Some (rows tb)) start end_ with
      | Some out => Some (mkTable (columns tb) out)
      | None => None
      end
  end.

(** *** Role header (lines 18-23 and 83-87) *)

Definition ROLE_THEME : gmap string string :=
  list_to_map [ ("Athlete", "#1f77b4"); ("Coach", "#2ca02c");
                ("Trainer", "#ff7f0e"); ("Team Doctor", "#d62728") ].

(** The roles offered by the select box of lines 146-149. *)
Definition role_options : list string :=
  ["Athlete"; "Coach"; "Trainer"; "Team Doctor"].

Definition role_header (role : string) : DashError + list Widget :=
  match ROLE_THEME !! role with
  | Some colour =>
      inr [w_markdown ("<h1 style='color:" +:+ colour +:+ ";'>"
                       +:+ role +:+ " Dashboard</h1>")]
  | None => inl (KeyError role)
  end.

(** *** Metric row (lines 112-115) *)

(** [st.columns] refuses to make no column at all. *)
Definition metric_row (metrics : list (string * Z))
    : DashError + list Widget :=
  match metrics with
  | [] => inl InvalidColumnSpec
  | _ => inr (w_columns (length metrics)
              :: imap (λ i m, w_metric i m.1 m.2) metrics)
  end.

(** *** Athlete metrics (lines 193-197) *)

(** [int(df[c].iloc[-1]) if df is not None else 0]. *)
Definition latest_int (t : option Table) (c : string) : DashError + Z :=
  match t with
  | None => inr 0
  | Some tb =>
      match getitem tb c with
      | inl err => inl err
      | inr s =>
          match iloc_last s with
          | inl err => inl err
          | inr x => inr (py_int x)
          end
      end
  end.

(** The three values are computed from left to right, then the row is
    drawn. *)
Definition athlete_metrics (energy calories activity : option Table)
    : DashError + list Widget :=
  match latest_int energy "energy_score" with
  | inl err => inl err
  | inr e =>
      match latest_int calories "calories" with
      | inl err => inl err
      | inr c =>
          match latest_int activity "active_minutes" with
          | inl err => inl err
          | inr a =>
              metric_row [("Energy Score", e); ("Calories", c);
                          ("Active Minutes", a)]
          end
      end
  end.

(** What the athlete's row is meant to show for a source, said without the
    functions above: 0 for a source that is absent, and for a source that
    is present the value of its last row under the column, with the
    fraction cut off towards zero. *)
Definition integer_part (x : Q) (n : Z) : Prop :=
  ((0 <= x)%Q → (inject_Z n <= x)%Q ∧ (x < inject_Z (n + 1))%Q)
  ∧ ((x <= 0)%Q → (inject_Z (n - 1) < x)%Q ∧ (x <= inject_Z n)%Q).

Definition shown_value (t : option Table) (c : string) (v : Z) : Prop :=
  match t with
  | None => v = 0
  | Some tb =>
      ∃ r x, last (rows tb) = Some r
             ∧ cell c (cells r) = Some x
             ∧ integer_part x v
  end.

(** *** Heart rate zones of the trainer (lines 224-232) *)

Definition hr_bins : list Q := [0; 100; 120; 140; 160; 220]%Q.

Definition hr_labels : list string := ["Z1"; "Z2"; "Z3"; "Z4"; "Z5"].

(** [pd.cut(x, bins, labels)] for one value: the label of the bin, open on
    the left and closed on the right, that holds the value, and the missing
    value when no bin does. *)
Fixpoint cut (bins : list Q) (labels : list string) (x : Q)
    : option string :=
  match bins, labels with
  | lo :: ((hi :: _) as rest), l :: ls =>
      if Qlt_bool lo x && Qle_bool x hi then Some l else cut rest ls x
  | _, _ => None
  end.

Definition hr_zone (bpm : Q) : option string := cut hr_bins hr_labels bpm.

(** [value_counts().sort_index()] on the categorical column: one count per
    category, in the order of the categories, the categories that do not
    occur included; missing values are not counted. *)
Definition value_counts (categories : list string)
    (s : list (option string)) : list (string * nat) :=
  (λ l, (l, length (filter (λ z, z = Some l) s))) <$> categories.

Definition zone_counts (bpm : list Q) : list (string * nat) :=
  value_counts hr_labels (hr_zone <$> bpm).

Definition trainer_zones (heart : option Table) : DashError + list Widget :=
  match heart with
  | None => inr []
  | Some tb =>
      match getitem tb "bpm" with
      | inl err => inl err
      | inr s => inr [w_bar_chart "Heart Rate Zones" (zone_counts s)]
      end
  end.

(** *** Blood oxygen alert of the team doctor (lines 252-253) *)

Definition low_spo2_msg : string := "⚠️ Low SpO₂ detected.".

(** [s.min() < 92]; a comparison with the missing value is false. *)
Definition below_92 (s : list Q) : bool :=
  match series_min s with
  | Some m => Qlt_bool m 92
  | None => false
  end.

Definition doctor_spo2 (spo2 : option Table) : DashError + list Widget :=
  match spo2 with
  | None => inr []
  | Some tb =>
      match getitem tb "oxygen_percent" with
      | inl err => inl err
      | inr s => inr (if below_92 s then [w_error low_spo2_msg] else [])
      end
  end.

(** ** Sample data *)

(** Day numbers of 2024-01-01, 2024-01-10, 2024-01-20 and 2024-01-31. *)
Definition jan01 : Date := 19723.
Definition jan10 : Date := 19732.
Definition jan20 : Date := 19742.
Definition jan31 : Date := 19753.

(** [h] hours into day [d]. *)
Definition ns_per_hour : Z := 3600000000000.

(** [h] hours into day [d], on a clock without a zone. *)
Definition at_hour (d : Date) (h : Z) : Timestamp :=
  naive (day_start d + h * ns_per_hour).

(** [h] hours into day [d] on a clock that is [off] hours ahead of UTC. *)
Definition at_hour_tz (d : Date) (h off : Z) : Timestamp :=
  mkTimestamp (day_start d + (h - off) * ns_per_hour)
              (Some (off * ns_per_hour)).

(** A heart-rate frame with one reading on the first, one on the fifteenth
    and one on the last day of January 2024. *)
Definition sample_heart : DataFrame Z :=
  [ mkRow 0%nat (at_hour jan01 8) [("bpm", 61)];
    mkRow 1%nat (at_hour (jan10 + 5) 13) [("bpm", 117)];
    mkRow 2%nat (at_hour jan31 21) [("bpm", 74)] ].

(** One reading in New York, five hours behind UTC, at 23:00 on
    2024-01-01, and one in Tokyo, nine hours ahead of UTC, at 10:00 on
    2024-01-02.  The reading in Tokyo is the earlier instant of the two. *)
Definition sample_newyork : DataFrame Z :=
  [ mkRow 0%nat (at_hour_tz jan01 23 (-5)) [("bpm", 64)] ].

Definition sample_tokyo : DataFrame Z :=
  [ mkRow 0%nat (at_hour_tz (jan01 + 1) 10 9) [("bpm", 58)] ].

(** One reading at 04:00 on 2024-01-02 in UTC: the same instant as the
    reading in New York, on another day. *)
Definition sample_utc : DataFrame Z :=
  [ mkRow 0%nat (at_hour_tz (jan01 + 1) 4 0) [("bpm", 71)] ].

(** A sleep frame with readings at the two ends of the month only. *)
Definition sample_sleep : DataFrame Z :=
  [ mkRow 0%nat (at_hour jan01 23) [("deep", 90); ("light", 240); ("rem", 80)];
    mkRow 1%nat (at_hour jan31 23) [("deep", 75); ("light", 260); ("rem", 95)] ].

(** An energy frame with scores on the first and on the last day of
    January 2024, a blood oxygen frame and a heart rate frame. *)
Definition sample_energy : Table :=
  mkTable ["timestamp"; "energy_score"]
    [ mkRow 0%nat (at_hour jan01 7) [("energy_score", 72%Q)];
      mkRow 1%nat (at_hour jan31 7) [("energy_score", 61.5%Q)] ].

Definition sample_spo2 : Table :=
  mkTable ["timestamp"; "oxygen_percent"]
    [ mkRow 0%nat (at_hour jan01 2) [("oxygen_percent", 97%Q)];
      mkRow 1%nat (at_hour jan10 3) [("oxygen_percent", 91.5%Q)];
      mkRow 2%nat (at_hour jan20 2) [("oxygen_percent", 98%Q)] ].

Definition sample_bpm : Table :=
  mkTable ["timestamp"; "bpm"]
    [ mkRow 0%nat (at_hour jan10 9) [("bpm", 61%Q)];
      mkRow 1%nat (at_hour jan10 10) [("bpm", 100%Q)];
      mkRow 2%nat (at_hour jan10 11) [("bpm", 174%Q)];
      mkRow 3%nat (at_hour jan10 12) [("bpm", 230%Q)] ].

(** * Properties *)

(** ** Dates *)

Lemma ns_per_day_pos : 0 < ns_per_day.
Proof. reflexivity. Qed.

Lemma timestamp_eq (a b : Timestamp) :
  clock a = clock b → tz a = tz b → a = b.
Proof. destruct a, b. cbn. by intros -> ->. Qed.

(** In one zone a later reading is on the same or on a later day.  Across
    zones this fails: see [date_not_mono]. *)
Lemma date_mono (a b : Timestamp) :
  tz a = tz b → clock a ≤ clock b → date a ≤ date b.
Proof.
  intros Htz Hab. unfold date, wall. rewrite Htz.
  apply Z.div_le_mono; [apply ns_per_day_pos | lia].
Qed.



(** ** The date filter *)

Section FilterProperties.
Context {Cell : Type}.

Implicit Types (df : DataFrame Cell) (d : option (DataFrame Cell)).

(** The mask built by lines 121-122 selects the rows of the window. *)
Lemma getitem_mask_window df start end_ :
  getitem_mask df
    (series_and (series_ge (dt_date (col_timestamp df)) start)
                (series_le (dt_date (col_timestamp df)) end_))
  = filter (in_window start end_) df.
Proof.
  induction df as [|r df IH]; [reflexivity|].
  cbn [col_timestamp dt_date series_ge series_le series_and fmap list_fmap
       zip_with getitem_mask].
  rewrite filter_cons.
  unfold col_timestamp, dt_date, series_ge, series_le, series_and in IH.
  rewrite IH. clear IH.
  destruct (decide (in_window start end_ r)) as [[Hlo Hhi]|Hout].
  - rewrite Z.geb_leb.
    rewrite (proj2 (Z.leb_le _ _) Hlo), (proj2 (Z.leb_le _ _) Hhi).
    reflexivity.
  - rewrite Z.geb_leb.
    destruct (Z.leb_spec start (date (timestamp r)));
      destruct (Z.leb_spec (date (timestamp r)) end_);
      try reflexivity.
    exfalso. apply Hout. split; assumption.
Qed.

Lemma filter_dates_Some df start end_ :
  filter_dates (Some df) start end_ = Some (filter (in_window start end_) df).
Proof. unfold filter_dates. cbv zeta. rewrite getitem_mask_window. reflexivity. Qed.

Lemma filter_dates_spec d w : filter_by_date d w = filter_by_date_spec d w.
Proof.
  destruct d as [df|]; [|reflexivity].
  unfold filter_by_date, filter_by_date_spec. apply filter_dates_Some.
Qed.

(** C5: on a present dataset the filter returns exactly the records whose
    calendar date [d] satisfies [start <= d <= end], both ends included, in
    the order they have in the input: the result is the specification's
    filter, it is a subsequence of the input, and a record is in it exactly
    when it is in the input with its date in the window. *)
Theorem filter_dates_exact df start end_ :
  ∃ out,
    filter_dates (Some df) start end_ = Some out
    ∧ Some out = filter_by_date_spec (Some df) (mkWindow start end_)
    ∧ out `sublist_of` df
    ∧ ∀ r, r ∈ out ↔ r ∈ df ∧ start ≤ date (timestamp r) ≤ end_.
Proof.
  exists (filter (in_window start end_) df).
  split; [apply filter_dates_Some|].
  split; [reflexivity|].
  split; [apply sublist_filter|].
  intros r. rewrite list_elem_of_filter. unfold in_window. tauto.
Qed.

(** C7: filtering an absent dataset returns absent, whatever the window. *)
Theorem filter_dates_absent (w : DateWindow) :
  filter_by_date (@None (DataFrame Cell)) w = None
  ∧ filter_dates (@None (DataFrame Cell)) (w_start w) (w_end w) = None.
Proof. split; reflexivity. Qed.

(** C8: filtering twice with the same window is filtering once, for a
    present and for an absent dataset. *)
Theorem filter_dates_idempotent d (w : DateWindow) :
  filter_by_date (filter_by_date d w) w = filter_by_date d w.
Proof.
  destruct d as [df|]; [|reflexivity].
  unfold filter_by_date. rewrite !filter_dates_Some.
  f_equal. apply list_filter_filter_l. tauto.
Qed.

(** C9: a smaller window keeps a subsequence of what a larger window
    keeps. *)
Theorem filter_dates_monotone d (w1 w2 : DateWindow) :
  w_start w1 ≤ w_start w2 →
  w_end w2 ≤ w_end w1 →
  subsequence (filter_by_date d w2) (filter_by_date d w1).
Proof.
  intros Hs He. destruct d as [df|]; [|constructor].
  unfold filter_by_date. rewrite !filter_dates_Some. constructor.
  rewrite <- (list_filter_filter_l (in_window (w_start w2) (w_end w2))
                (in_window (w_start w1) (w_end w1)) df).
  - apply sublist_filter.
  - unfold in_window. intros r [Hlo Hhi]. split; lia.
Qed.

End FilterProperties.

(** ** Extrema *)

Lemma keep_min_cases (cur x : Timestamp) :
  (keep_min cur x = cur ∨ keep_min cur x = x)
  ∧ clock (keep_min cur x) ≤ clock cur
  ∧ clock (keep_min cur x) ≤ clock x.
Proof.
  unfold keep_min, earlier.
  destruct (Z.ltb_spec (clock x) (clock cur)); split; auto; lia.
Qed.

Lemma keep_max_cases (cur x : Timestamp) :
  (keep_max cur x = cur ∨ keep_max cur x = x)
  ∧ clock cur ≤ clock (keep_max cur x)
  ∧ clock x ≤ clock (keep_max cur x).
Proof.
  unfold keep_max, earlier.
  destruct (Z.ltb_spec (clock cur) (clock x)); split; auto; lia.
Qed.

Lemma foldl_min_spec (ts : list Timestamp) (t : Timestamp) :
  foldl keep_min t ts ∈ t :: ts
  ∧ Forall (λ x, clock (foldl keep_min t ts) ≤ clock x) (t :: ts).
Proof.
  revert t. induction ts as [|x ts IH]; intros t; cbn [foldl].
  - split; [left | repeat constructor; lia].
  - destruct (IH (keep_min t x)) as [Hin Hle].
    destruct (keep_min_cases t x) as (Hcase & Ht & Hx). split.
    + apply elem_of_cons in Hin as [Heq | Hin].
      * rewrite Heq. destruct Hcase as [-> | ->]; [left | right; left].
      * right; right; exact Hin.
    + apply Forall_cons in Hle as [Hhd Htl].
      constructor; [lia|]. constructor; [lia | exact Htl].
Qed.

Lemma foldl_max_spec (ts : list Timestamp) (t : Timestamp) :
  foldl keep_max t ts ∈ t :: ts
  ∧ Forall (λ x, clock x ≤ clock (foldl keep_max t ts)) (t :: ts).
Proof.
  revert t. induction ts as [|x ts IH]; intros t; cbn [foldl].
  - split; [left | repeat constructor; lia].
  - destruct (IH (keep_max t x)) as [Hin Hle].
    destruct (keep_max_cases t x) as (Hcase & Ht & Hx). split.
    + apply elem_of_cons in Hin as [Heq | Hin].
      * rewrite Heq. destruct Hcase as [-> | ->]; [left | right; left].
      * right; right; exact Hin.
    + apply Forall_cons in Hle as [Hhd Htl].
      constructor; [lia|]. constructor; [lia | exact Htl].
Qed.

Lemma list_min_spec (s : list Timestamp) (m : Timestamp) :
  list_min s = Some m → m ∈ s ∧ ∀ x, x ∈ s → clock m ≤ clock x.
Proof.
  destruct s as [|t ts]; [discriminate|]. intros [= <-].
  destruct (foldl_min_spec ts t) as [Hin Hle].
  split; [exact Hin|]. intros x Hx.
  rewrite Forall_forall in Hle. apply Hle, Hx.
Qed.

Lemma list_max_spec (s : list Timestamp) (m : Timestamp) :
  list_max s = Some m → m ∈ s ∧ ∀ x, x ∈ s → clock x ≤ clock m.
Proof.
  destruct s as [|t ts]; [discriminate|]. intros [= <-].
  destruct (foldl_max_spec ts t) as [Hin Hle].
  split; [exact Hin|]. intros x Hx.
  rewrite Forall_forall in Hle. apply (Hle x Hx).
Qed.

Lemma list_min_is_Some (s : list Timestamp) : s ≠ [] → is_Some (list_min s).
Proof. destruct s; [congruence | eexists; reflexivity]. Qed.

Lemma list_max_is_Some (s : list Timestamp) : s ≠ [] → is_Some (list_max s).
Proof. destruct s; [congruence | eexists; reflexivity]. Qed.

(** When Python's [min] and [max] return, they return what the fold
    keeps. *)
Lemma py_min_inr (rest : list Timestamp) (cur m : Timestamp) :
  py_min cur rest = inr m → m = foldl keep_min cur rest.
Proof.
  revert cur. induction rest as [|x rest IH]; intros cur; cbn [py_min foldl].
  - by intros [= <-].
  - destruct (comparable x cur); [apply IH | discriminate].
Qed.

Lemma py_max_inr (rest : list Timestamp) (cur m : Timestamp) :
  py_max cur rest = inr m → m = foldl keep_max cur rest.
Proof.
  revert cur. induction rest as [|x rest IH]; intros cur; cbn [py_max foldl].
  - by intros [= <-].
  - destruct (comparable x cur); [apply IH | discriminate].
Qed.

Lemma comparable_same_tz (a b : Timestamp) : tz a = tz b → comparable a b = true.
Proof. unfold comparable. intros ->. by destruct (tz b). Qed.

(** In one zone they always return. *)
Lemma py_min_zone (z : option Z) (rest : list Timestamp) (cur : Timestamp) :
  tz cur = z → Forall (λ x, tz x = z) rest →
  py_min cur rest = inr (foldl keep_min cur rest).
Proof.
  intros Hcur Hall. revert cur Hcur.
  induction Hall as [|x rest Hx _ IH]; intros cur Hcur; cbn [py_min foldl].
  - reflexivity.
  - rewrite comparable_same_tz by congruence. apply IH.
    by destruct (keep_min_cases cur x) as ([-> | ->] & _).
Qed.

Lemma py_max_zone (z : option Z) (rest : list Timestamp) (cur : Timestamp) :
  tz cur = z → Forall (λ x, tz x = z) rest →
  py_max cur rest = inr (foldl keep_max cur rest).
Proof.
  intros Hcur Hall. revert cur Hcur.
  induction Hall as [|x rest Hx _ IH]; intros cur Hcur; cbn [py_max foldl].
  - reflexivity.
  - rewrite comparable_same_tz by congruence. apply IH.
    by destruct (keep_max_cases cur x) as ([-> | ->] & _).
Qed.

(** The only exception they raise is [TypeError]. *)
Lemma py_min_inl (rest : list Timestamp) (cur : Timestamp) (err : PyError) :
  py_min cur rest = inl err → err = TypeError.
Proof.
  revert cur. induction rest as [|x rest IH]; intros cur; cbn [py_min].
  - discriminate.
  - destruct (comparable x cur); [apply IH | by intros [= <-]].
Qed.

Lemma py_max_inl (rest : list Timestamp) (cur : Timestamp) (err : PyError) :
  py_max cur rest = inl err → err = TypeError.
Proof.
  revert cur. induction rest as [|x rest IH]; intros cur; cbn [py_max].
  - discriminate.
  - destruct (comparable x cur); [apply IH | by intros [= <-]].
Qed.

(** ** The range computer *)

Section RangeProperties.
Context {Cell : Type}.

Implicit Types (df : DataFrame Cell) (d : option (DataFrame Cell))
  (dfs : list (option (DataFrame Cell))).

Lemma collect_step_app (acc : list Timestamp) d :
  collect_step acc d = acc ++ collect_step [] d.
Proof.
  unfold collect_step. destruct d as [df|]; [|by rewrite app_nil_r].
  destruct (empty df); [by rewrite app_nil_r|].
  destruct (list_min (col_timestamp df)), (list_max (col_timestamp df));
    by rewrite ?app_nil_r.
Qed.

Lemma foldl_collect_step (acc : list Timestamp) dfs :
  foldl collect_step acc dfs = acc ++ collect dfs.
Proof.
  unfold collect. revert acc.
  induction dfs as [|d dfs IH]; intros acc; cbn [foldl].
  - by rewrite app_nil_r.
  - rewrite (IH (collect_step acc d)), (IH (collect_step [] d)).
    rewrite (collect_step_app acc d). by rewrite app_assoc.
Qed.

Lemma collect_cons d dfs : collect (d :: dfs) = collect_step [] d ++ collect dfs.
Proof. unfold collect at 1. cbn [foldl]. apply foldl_collect_step. Qed.

Lemma collect_step_no_data d : no_data d → collect_step [] d = [].
Proof. by intros [-> | ->]. Qed.

Lemma collect_step_data df :
  df ≠ [] →
  ∃ lo hi,
    list_min (col_timestamp df) = Some lo
    ∧ list_max (col_timestamp df) = Some hi
    ∧ collect_step [] (Some df) = [lo; hi].
Proof.
  intros Hne. destruct df as [|r rs]; [congruence|].
  eexists _, _. repeat split.
Qed.

Lemma no_data_dec d : no_data d ∨ ∃ df, d = Some df ∧ df ≠ [].
Proof.
  destruct d as [[|r rs]|].
  - left; by right.
  - right; by eexists.
  - left; by left.
Qed.

(** What [valid_dates] holds at the end of the loop: the least and the
    greatest timestamp of every dataset that is present and not empty. *)
Lemma elem_of_collect (t : Timestamp) dfs :
  t ∈ collect dfs ↔
  ∃ df, Some df ∈ dfs ∧ df ≠ []
        ∧ (list_min (col_timestamp df) = Some t
           ∨ list_max (col_timestamp df) = Some t).
Proof.
  induction dfs as [|d dfs IH].
  - split; [intros H; inversion H | intros (df & H & _); inversion H].
  - rewrite collect_cons, elem_of_app, IH. clear IH. split.
    + intros [Hhd | (df & Hin & Hne & Hext)].
      * destruct (no_data_dec d) as [Hnd | (df & -> & Hne)].
        { rewrite (collect_step_no_data d Hnd) in Hhd. inversion Hhd. }
        destruct (collect_step_data df Hne) as (lo & hi & Hlo & Hhi & Heq).
        rewrite Heq in Hhd. exists df.
        split; [left|]. split; [exact Hne|].
        apply elem_of_cons in Hhd as [-> | Hhd]; [by left|].
        apply elem_of_cons in Hhd as [-> | Hhd]; [by right|].
        inversion Hhd.
      * exists df. split; [by right | by split].
    + intros (df & Hin & Hne & Hext).
      apply elem_of_cons in Hin as [<- | Hin].
      * left. destruct (collect_step_data df Hne) as (lo & hi & Hlo & Hhi & ->).
        destruct Hext as [Hext | Hext].
        -- rewrite Hlo in Hext. injection Hext as ->. left.
        -- rewrite Hhi in Hext. injection Hext as ->. right; left.
      * right. exists df. by repeat split.
Qed.

Lemma collect_nil_iff dfs : collect dfs = [] ↔ Forall no_data dfs.
Proof.
  induction dfs as [|d dfs IH]; [by split|].
  rewrite collect_cons, Forall_cons, <- IH. split.
  - intros [Hhd Htl]%app_eq_nil. split; [|exact Htl].
    destruct (no_data_dec d) as [Hnd | (df & -> & Hne)]; [exact Hnd|].
    destruct (collect_step_data df Hne) as (lo & hi & _ & _ & Heq).
    rewrite Heq in Hhd. discriminate.
  - intros [Hnd ->]. by rewrite (collect_step_no_data d Hnd).
Qed.

(** A global extremum is the timestamp of a record of some dataset. *)
Lemma collect_elem_record dfs (t : Timestamp) :
  t ∈ collect dfs → ∃ df r, Some df ∈ dfs ∧ r ∈ df ∧ timestamp r = t.
Proof.
  intros (df & Hdf & _ & Hext)%elem_of_collect.
  assert (t ∈ col_timestamp df) as Hin.
  { destruct Hext as [H | H];
      [apply list_min_spec in H | apply list_max_spec in H]; apply H. }
  unfold col_timestamp in Hin.
  apply list_elem_of_fmap in Hin as (r & -> & Hr). by exists df, r.
Qed.

Lemma collect_zone (z : option Z) dfs :
  in_zone z dfs → Forall (λ t, tz t = z) (collect dfs).
Proof.
  intros Hz. apply Forall_forall.
  intros t (df & r & Hdf & Hr & <-)%collect_elem_record.
  by apply (Hz df r).
Qed.

(** The results of [get_available_date_range] in terms of
    [valid_dates]. *)
Lemma get_available_date_range_None dfs :
  collect dfs = [] → get_available_date_range dfs = inr (None, None).
Proof. unfold get_available_date_range. by intros ->. Qed.

Lemma get_available_date_range_zone (z : option Z) dfs :
  in_zone z dfs →
  collect dfs ≠ [] →
  ∃ gmin gmax,
    list_min (collect dfs) = Some gmin
    ∧ list_max (collect dfs) = Some gmax
    ∧ get_available_date_range dfs
      = inr (Some (date gmin), Some (date gmax)).
Proof.
  intros Hz%collect_zone Hne. unfold get_available_date_range.
  destruct (collect dfs) as [|t ts]; [congruence|].
  apply Forall_cons in Hz as [Ht Hts].
  rewrite (py_min_zone z ts t Ht Hts), (py_max_zone z ts t Ht Hts).
  eexists _, _. repeat split.
Qed.

Lemma bounds_present dfs (mn mx : Date) :
  get_available_date_range dfs = inr (Some mn, Some mx) →
  ∃ gmin gmax,
    list_min (collect dfs) = Some gmin
    ∧ list_max (collect dfs) = Some gmax
    ∧ mn = date gmin ∧ mx = date gmax.
Proof.
  unfold get_available_date_range.
  destruct (collect dfs) as [|t ts]; [discriminate|].
  destruct (py_min t ts) as [|lo] eqn:Hlo; [discriminate|].
  destruct (py_max t ts) as [|hi] eqn:Hhi; [discriminate|].
  intros [= <- <-].
  apply py_min_inr in Hlo. apply py_max_inr in Hhi. subst lo hi.
  eexists _, _. repeat split.
Qed.

(** The shapes of the result: the pair of line 37, a pair of two dates, or
    [TypeError]. *)
Lemma get_available_date_range_shape dfs :
  (Forall no_data dfs ∧ get_available_date_range dfs = inr (None, None))
  ∨ (∃ mn mx, get_available_date_range dfs = inr (Some mn, Some mx))
  ∨ (¬ Forall no_data dfs
     ∧ get_available_date_range dfs = inl TypeError).
Proof.
  destruct (decide (collect dfs = [])) as [Hnil | Hne].
  - left. split; [by apply collect_nil_iff|].
    by apply get_available_date_range_None.
  - right. unfold get_available_date_range.
    destruct (collect dfs) as [|t ts] eqn:Hcol; [congruence|].
    assert (¬ Forall no_data dfs) as Hdata.
    { intros Hall%collect_nil_iff. congruence. }
    destruct (py_min t ts) as [err|lo] eqn:Hlo.
    { right. split; [exact Hdata|]. by rewrite (py_min_inl _ _ _ Hlo). }
    destruct (py_max t ts) as [err|hi] eqn:Hhi.
    { right. split; [exact Hdata|]. by rewrite (py_max_inl _ _ _ Hhi). }
    left. by eexists _, _.
Qed.

(** Every timestamp of every dataset lies between the two global extrema. *)
Lemma collect_extrema_enclose dfs (gmin gmax : Timestamp) :
  list_min (collect dfs) = Some gmin →
  list_max (collect dfs) = Some gmax →
  ∀ df r, Some df ∈ dfs → r ∈ df →
    clock gmin ≤ clock (timestamp r) ≤ clock gmax.
Proof.
  intros Hmin Hmax df r Hdf Hr.
  destruct (list_min_spec _ _ Hmin) as [_ Hlow].
  destruct (list_max_spec _ _ Hmax) as [_ Hhigh].
  assert (df ≠ []) as Hne by (intros ->; inversion Hr).
  destruct (collect_step_data df Hne) as (lo & hi & Hlo & Hhi & _).
  assert (timestamp r ∈ col_timestamp df) as Hts
    by (unfold col_timestamp; apply list_elem_of_fmap; by exists r).
  destruct (list_min_spec _ _ Hlo) as [_ Hlo'].
  destruct (list_max_spec _ _ Hhi) as [_ Hhi'].
  assert (lo ∈ collect dfs) as Hlo_in
    by (apply elem_of_collect; exists df; by auto).
  assert (hi ∈ collect dfs) as Hhi_in
    by (apply elem_of_collect; exists df; by auto).
  specialize (Hlow lo Hlo_in). specialize (Hhigh hi Hhi_in).
  specialize (Hlo' _ Hts). specialize (Hhi' _ Hts). lia.
Qed.

Lemma compute_bounds_Some dfs (b : GlobalBounds) :
  compute_bounds dfs = Some b →
  get_available_date_range dfs = inr (Some (b_min b), Some (b_max b)).
Proof.
  unfold compute_bounds.
  destruct (get_available_date_range dfs) as [|[[mn|] [mx|]]];
    try discriminate.
  by intros [= <-].
Qed.

(** In one zone every record of every dataset has its date within the
    bounds. *)
Lemma bounds_enclose_dates (z : option Z) dfs (mn mx : Date) :
  in_zone z dfs →
  get_available_date_range dfs = inr (Some mn, Some mx) →
  ∀ df r, Some df ∈ dfs → r ∈ df → in_window mn mx r.
Proof.
  intros Hz (gmin & gmax & Hmin & Hmax & -> & ->)%bounds_present df r Hdf Hr.
  destruct (collect_extrema_enclose dfs gmin gmax Hmin Hmax df r Hdf Hr).
  pose proof (collect_zone z dfs Hz) as Hcol. rewrite Forall_forall in Hcol.
  assert (tz gmin = z) by (apply Hcol; by apply list_min_spec).
  assert (tz gmax = z) by (apply Hcol; by apply list_max_spec).
  assert (tz (timestamp r) = z) by (by apply (Hz df r)).
  split; apply date_mono; congruence || done.
Qed.

End RangeProperties.

(** ** The range validator *)

(** What a call with both bounds present does: one test after the other, as
    lines 46-81 have them. *)
Lemma validate_date_range_run (s e mn mx : Date) :
  run (validate_date_range s e (Some mn) (Some mx)) =
  if s >? e then (Returned false, [st_error start_after_end_msg])
  else if (e <? mn) || (s >? mx)
       then (Returned false, [st_markdown_date_range_error mn (Some mx)])
       else (Returned true, []).
Proof.
  unfold run, validate_date_range, outside.
  destruct (s >? e); [reflexivity|].
  destruct (e <? mn); [reflexivity|].
  destruct (s >? mx); reflexivity.
Qed.

(** Without bounds the answer is a silent [False], whatever the window. *)
Lemma validate_date_range_no_bounds (s e : Date) (max_date : option Date) :
  run (validate_date_range s e None max_date) = (Returned false, []).
Proof. reflexivity. Qed.

Lemma validate_present (s e mn mx : Date) :
  validate (mkWindow s e) (Some (mkBounds mn mx)) =
  Some (if s >? e then InvertedRange
        else if (e <? mn) || (s >? mx) then OutsideBounds else Ok).
Proof.
  unfold validate. cbn [w_start w_end b_min b_max fmap option_fmap option_map].
  rewrite validate_date_range_run.
  destruct (s >? e); [reflexivity|].
  destruct ((e <? mn) || (s >? mx)); reflexivity.
Qed.

Lemma validate_Ok (s e mn mx : Date) :
  validate (mkWindow s e) (Some (mkBounds mn mx)) = Some Ok ↔
  s ≤ e ∧ mn ≤ e ∧ s ≤ mx.
Proof.
  rewrite validate_present.
  destruct (Z.gtb_spec s e), (Z.ltb_spec e mn), (Z.gtb_spec s mx);
    cbn [orb]; split; try discriminate; try lia; reflexivity.
Qed.

(** C1: for a window with [start <= end] and present bounds, the validator
    answers [OutsideBounds] exactly when the window and the bounds share no
    day ([end < min] or [start > max]), and [Ok] for every other window,
    also one that reaches beyond the bounds on either side. *)
Theorem validate_overlap_test (s e mn mx : Date) :
  s ≤ e →
  (validate (mkWindow s e) (Some (mkBounds mn mx)) = Some OutsideBounds
   ↔ e < mn ∨ s > mx)
  ∧ (¬ (e < mn ∨ s > mx) →
     validate (mkWindow s e) (Some (mkBounds mn mx)) = Some Ok).
Proof.
  intros Hse. rewrite validate_present.
  destruct (Z.gtb_spec s e) as [Hgt | _]; [lia|].
  destruct (Z.ltb_spec e mn), (Z.gtb_spec s mx); cbn [orb];
    (split; [split; [try discriminate; try lia | try lia; try reflexivity] |]);
    intros; try reflexivity; try lia.
Qed.

Lemma validate_overlap_test_witness :
  (validate (mkWindow jan20 (jan31 + 9)) (Some (mkBounds jan01 jan31))
     = Some OutsideBounds
   ↔ jan31 + 9 < jan01 ∨ jan20 > jan31)
  ∧ (¬ (jan31 + 9 < jan01 ∨ jan20 > jan31) →
     validate (mkWindow jan20 (jan31 + 9)) (Some (mkBounds jan01 jan31))
       = Some Ok).
Proof.
  apply (validate_overlap_test jan20 (jan31 + 9) jan01 jan31).
  unfold jan20, jan31. lia.
Defined.

(** C2, as the source has it: with bounds present, a window whose start is
    after its end is answered [InvertedRange] whatever the bounds are, also
    when the window lies outside them; with bounds absent every window,
    inverted or not, is answered [NoData], since the test for missing
    bounds comes first. *)
Theorem validate_inverted (s e : Date) (w : DateWindow) :
  (s > e →
   ∀ b : GlobalBounds, validate (mkWindow s e) (Some b) = Some InvertedRange)
  ∧ validate w None = Some NoData.
Proof.
  split; [|reflexivity].
  intros Hse [mn mx]. rewrite validate_present.
  destruct (Z.gtb_spec s e) as [_ | Hle]; [reflexivity | lia].
Qed.

Lemma validate_inverted_witness :
  validate (mkWindow (jan31 + 20) (jan31 + 10)) (Some (mkBounds jan01 jan31))
    = Some InvertedRange
  ∧ validate (mkWindow jan10 jan20) None = Some NoData.
Proof.
  destruct (validate_inverted (jan31 + 20) (jan31 + 10)
              (mkWindow jan10 jan20)) as [Hinv Hnone].
  split; [|exact Hnone].
  apply Hinv. unfold jan31. lia.
Defined.

(** C2 as stated fails: with bounds absent, the window from 2024-01-20 back
    to 2024-01-10 is answered [NoData], not [InvertedRange]. *)
Lemma validate_inverted_no_bounds_counterexample :
  ¬ (∀ (w : DateWindow) (bounds : option GlobalBounds),
       w_start w > w_end w → validate w bounds = Some InvertedRange).
Proof.
  intros H.
  specialize (H (mkWindow jan20 jan10) None).
  assert (validate (mkWindow jan20 jan10) None = Some NoData) as Hnd
    by reflexivity.
  rewrite Hnd in H.
  assert (Some NoData = Some InvertedRange) as Habs
    by (apply H; reflexivity).
  discriminate Habs.
Qed.

(** ** The claims on the bounds *)

Section BoundsClaims.
Context {Cell : Type}.

Implicit Types (df : DataFrame Cell) (d : option (DataFrame Cell))
  (dfs : list (option (DataFrame Cell))).



(** C6: on a collection in which every dataset is absent or empty, the
    empty collection included, the range computer returns the pair
    [(None, None)], and the script reports that no valid data was found
    and stops before anything is validated or filtered. *)
Theorem no_data_no_bounds dfs (start_date end_date : Date) :
  Forall no_data dfs →
  get_available_date_range dfs = inr (None, None)
  ∧ compute_bounds dfs = None
  ∧ run (main dfs start_date end_date)
    = (Stopped, [st_error no_valid_data_msg]).
Proof.
  intros Hall%collect_nil_iff.
  pose proof (get_available_date_range_None dfs Hall) as Hnone.
  split; [exact Hnone|]. split.
  - unfold compute_bounds. by rewrite Hnone.
  - unfold run, main. by rewrite Hnone.
Qed.


(** C4, as the source has it: when the bounds are present and the validator
    accepts a window that contains the lower or the upper bound, some
    dataset of the collection keeps at least one record under the filter. *)
Theorem accepted_window_on_a_bound_keeps_data dfs (b : GlobalBounds)
    (w : DateWindow) :
  compute_bounds dfs = Some b →
  validate w (Some b) = Some Ok →
  w_start w ≤ b_min b ∨ b_max b ≤ w_end w →
  ∃ df out,
    Some df ∈ dfs ∧ filter_by_date (Some df) w = Some out ∧ out ≠ [].
Proof.
  destruct b as [mn mx], w as [s e]. cbn [b_min b_max w_start w_end].
  intros Hb%compute_bounds_Some Hok%validate_Ok Hcover.
  cbn [b_min b_max] in Hb.
  destruct (bounds_present dfs mn mx Hb)
    as (gmin & gmax & Hmin & Hmax & -> & ->).
  assert (∃ t, t ∈ collect dfs ∧ s ≤ date t ≤ e) as (t & Ht & Hwin).
  { destruct Hcover as [Hlow | Hhigh].
    - exists gmin. split; [by apply list_min_spec | lia].
    - exists gmax. split; [by apply list_max_spec | lia]. }
  destruct (collect_elem_record dfs t Ht) as (df & r & Hdf & Hr & <-).
  exists df, (filter (in_window s e) df).
  split; [exact Hdf|]. split; [apply filter_dates_Some|].
  intros Hnil.
  apply (filter_nil_not_elem_of (in_window s e) df r Hnil); [|exact Hr].
  exact Hwin.
Qed.

End BoundsClaims.

(** ** The claims at the sample data *)

(** The scenarios of section 8 of the specification. *)
Example scenario_inside :
  validate (mkWindow jan10 jan20) (Some (mkBounds jan01 jan31)) = Some Ok
  ∧ filter_by_date (Some sample_heart) (mkWindow jan10 jan20)
    = Some [mkRow 1%nat (at_hour (jan10 + 5) 13) [("bpm", 117)]].
Proof. split; reflexivity. Qed.

Example scenario_outside :
  validate (mkWindow (jan31 + 1) (jan31 + 5)) (Some (mkBounds jan01 jan31))
  = Some OutsideBounds.
Proof. reflexivity. Qed.

(** The bounds come as a pair, and only the first half is tested for
    [None]: a call with a lower bound and no upper bound raises as soon as
    the upper bound is compared.  The range computer never returns such a
    pair. *)
Example upper_bound_missing :
  run (validate_date_range jan10 jan20 (Some jan01) None)
  = (Raised TypeError, []).
Proof. reflexivity. Qed.

(** Across zones the earlier instant can be on the later day. *)
Example date_not_mono :
  earlier (at_hour_tz (jan01 + 1) 10 9) (at_hour_tz jan01 23 (-5)) = true
  ∧ date (at_hour_tz (jan01 + 1) 10 9) = jan01 + 1
  ∧ date (at_hour_tz jan01 23 (-5)) = jan01.
Proof. repeat split. Qed.

(** The readings in New York and in Tokyo: the lower bound is after the
    upper one, and the script ends in the first date picker. *)
Example bounds_of_two_zones :
  get_available_date_range [Some sample_newyork; Some sample_tokyo]
    = inr (Some (jan01 + 1), Some jan01)
  ∧ run (main [Some sample_newyork; Some sample_tokyo] jan01 jan01)
    = (Raised StreamlitAPIException, []).
Proof. split; reflexivity. Qed.

(** The readings in New York and in UTC are the same instant on two days.
    [min] and [max] keep the first of the two, so the bounds follow the
    order of the datasets. *)
Example bounds_of_equal_instants :
  get_available_date_range [Some sample_newyork; Some sample_utc]
    = inr (Some jan01, Some jan01)
  ∧ get_available_date_range [Some sample_utc; Some sample_newyork]
    = inr (Some (jan01 + 1), Some (jan01 + 1)).
Proof. split; reflexivity. Qed.

(** A frame without a zone beside a frame with one: [min] raises, and so
    does the script. *)
Example naive_beside_aware :
  get_available_date_range [Some sample_heart; Some sample_tokyo]
    = inl TypeError
  ∧ run (main [Some sample_heart; Some sample_tokyo] jan10 jan20)
    = (Raised TypeError, []).
Proof. split; reflexivity. Qed.

Example scenario_all_absent :
  run (main (replicate 12 (@None (DataFrame Z))) jan10 jan20)
  = (Stopped, [st_error no_valid_data_msg]).
Proof. reflexivity. Qed.

Example scenario_run :
  run (main [Some sample_heart; None; Some sample_sleep] jan10 jan20)
  = (Returned
       [Some [mkRow 1%nat (at_hour (jan10 + 5) 13) [("bpm", 117)]];
        None; Some []],
     []).
Proof. reflexivity. Qed.

(** The sample frames without a zone are in one zone. *)
Ltac naive_zone :=
  exists None; intros df r Hdf Hr;
  repeat (apply elem_of_cons in Hdf as [[= ->] | Hdf]);
  try (by inversion Hdf);
  repeat (apply elem_of_cons in Hr as [-> | Hr]);
  try reflexivity; by inversion Hr.



Lemma no_data_no_bounds_witness :
  get_available_date_range [None; Some []; @None (DataFrame Z)]
    = inr (None, None)
  ∧ compute_bounds [None; Some []; @None (DataFrame Z)] = None
  ∧ run (main [None; Some []; @None (DataFrame Z)] jan10 jan20)
    = (Stopped, [st_error no_valid_data_msg]).
Proof.
  apply (no_data_no_bounds [None; Some []; None] jan10 jan20).
  constructor; [left; reflexivity|].
  constructor; [right; reflexivity|].
  constructor; [left; reflexivity|].
  constructor.
Defined.

Lemma filter_dates_monotone_witness :
  subsequence
    (filter_by_date (Some sample_heart) (mkWindow jan10 jan20))
    (filter_by_date (Some sample_heart) (mkWindow jan01 jan31)).
Proof.
  apply (filter_dates_monotone (Some sample_heart)
           (mkWindow jan01 jan31) (mkWindow jan10 jan20)).
  - vm_compute. discriminate.
  - vm_compute. discriminate.
Defined.



Lemma accepted_window_on_a_bound_keeps_data_witness :
  ∃ df out,
    Some df ∈ [Some sample_heart; None; Some sample_sleep]
    ∧ filter_by_date (Some df) (mkWindow jan20 (jan31 + 9)) = Some out
    ∧ out ≠ [].
Proof.
  apply (accepted_window_on_a_bound_keeps_data
           [Some sample_heart; None; Some sample_sleep]
           (mkBounds jan01 jan31) (mkWindow jan20 (jan31 + 9))).
  - vm_compute. reflexivity.
  - vm_compute. reflexivity.
  - right. vm_compute. discriminate.
Defined.

(** C4 as stated fails: the sleep frame has readings on 2024-01-01 and on
    2024-01-31 only, so its bounds are the whole month; the window from
    2024-01-10 to 2024-01-20 is accepted, and the filter keeps nothing. *)
Lemma accepted_window_empty_counterexample :
  ¬ (∀ (dfs : list (option (DataFrame Z))) (b : GlobalBounds)
       (w : DateWindow),
       compute_bounds dfs = Some b →
       validate w (Some b) = Some Ok →
       ∃ df out,
         Some df ∈ dfs ∧ filter_by_date (Some df) w = Some out ∧ out ≠ []).
Proof.
  intros H.
  destruct (H [Some sample_sleep; None] (mkBounds jan01 jan31)
              (mkWindow jan10 jan20) eq_refl eq_refl)
    as (df & out & Hin & Hf & Hne).
  apply elem_of_cons in Hin as [[= ->] | Hin].
  - vm_compute in Hf. congruence.
  - apply elem_of_cons in Hin as [Habs | Hin]; [discriminate | inversion Hin].
Qed.

(** * Further properties of the date logic *)

(** ** More on extrema and on [valid_dates] *)

Lemma list_min_None (s : list Timestamp) : list_min s = None → s = [].
Proof. by destruct s. Qed.

Lemma list_max_None (s : list Timestamp) : list_max s = None → s = [].
Proof. by destruct s. Qed.

(** In one zone the least and the greatest element do not depend on the
    order. *)
Lemma list_min_perm (z : option Z) (s s' : list Timestamp) :
  Forall (λ t, tz t = z) s → s ≡ₚ s' → list_min s = list_min s'.
Proof.
  rewrite Forall_forall. intros Hz Hp.
  destruct (list_min s) as [m|] eqn:Hm, (list_min s') as [m'|] eqn:Hm'.
  - destruct (list_min_spec _ _ Hm) as [Hin Hle].
    destruct (list_min_spec _ _ Hm') as [Hin' Hle'].
    f_equal. apply timestamp_eq.
    + apply Z.le_antisymm; [apply Hle; by rewrite Hp|].
      apply Hle'. by rewrite <- Hp.
    + rewrite (Hz m Hin). symmetry. apply Hz. by rewrite Hp.
  - apply list_min_None in Hm'. subst s'.
    apply Permutation_nil_r in Hp. subst s. discriminate.
  - apply list_min_None in Hm. subst s.
    apply Permutation_nil_l in Hp. subst s'. discriminate.
  - reflexivity.
Qed.

Lemma list_max_perm (z : option Z) (s s' : list Timestamp) :
  Forall (λ t, tz t = z) s → s ≡ₚ s' → list_max s = list_max s'.
Proof.
  rewrite Forall_forall. intros Hz Hp.
  destruct (list_max s) as [m|] eqn:Hm, (list_max s') as [m'|] eqn:Hm'.
  - destruct (list_max_spec _ _ Hm) as [Hin Hle].
    destruct (list_max_spec _ _ Hm') as [Hin' Hle'].
    f_equal. apply timestamp_eq.
    + apply Z.le_antisymm; [apply Hle'; by rewrite <- Hp|].
      apply Hle. by rewrite Hp.
    + rewrite (Hz m Hin). symmetry. apply Hz. by rewrite Hp.
  - apply list_max_None in Hm'. subst s'.
    apply Permutation_nil_r in Hp. subst s. discriminate.
  - apply list_max_None in Hm. subst s.
    apply Permutation_nil_l in Hp. subst s'. discriminate.
  - reflexivity.
Qed.

Section RangeMore.
Context {Cell : Type}.

Implicit Types (df : DataFrame Cell) (d : option (DataFrame Cell))
  (dfs : list (option (DataFrame Cell))).

(** The result depends on the collection through [valid_dates] only. *)
Lemma get_available_date_range_collect dfs dfs' :
  collect dfs = collect dfs' →
  get_available_date_range dfs = get_available_date_range dfs'.
Proof. unfold get_available_date_range. by intros ->. Qed.

Lemma get_available_date_range_zone_eq (z : option Z) dfs :
  in_zone z dfs →
  get_available_date_range dfs
  = inr (date <$> list_min (collect dfs), date <$> list_max (collect dfs)).
Proof.
  intros Hz%collect_zone. unfold get_available_date_range.
  destruct (collect dfs) as [|t ts]; [reflexivity|].
  apply Forall_cons in Hz as [Ht Hts].
  by rewrite (py_min_zone z ts t Ht Hts), (py_max_zone z ts t Ht Hts).
Qed.

Lemma collect_app dfs1 dfs2 :
  collect (dfs1 ++ dfs2) = collect dfs1 ++ collect dfs2.
Proof.
  unfold collect at 1. rewrite foldl_app. apply foldl_collect_step.
Qed.

Lemma collect_perm dfs dfs' : dfs ≡ₚ dfs' → collect dfs ≡ₚ collect dfs'.
Proof.
  induction 1 as [|d l l' _ IH|d d' l|l l' l'' _ IH1 _ IH2].
  - reflexivity.
  - rewrite !collect_cons. by rewrite IH.
  - rewrite !collect_cons, !app_assoc.
    by rewrite (Permutation_app_comm (collect_step [] d')).
  - by rewrite IH1.
Qed.

(** In one zone: the two possible results. *)
Lemma bounds_cases (z : option Z) dfs :
  in_zone z dfs →
  (Forall no_data dfs ∧ get_available_date_range dfs = inr (None, None))
  ∨ (∃ gmin gmax,
       list_min (collect dfs) = Some gmin
       ∧ list_max (collect dfs) = Some gmax
       ∧ tz gmin = z ∧ tz gmax = z
       ∧ clock gmin ≤ clock gmax
       ∧ get_available_date_range dfs
         = inr (Some (date gmin), Some (date gmax))).
Proof.
  intros Hz. destruct (decide (collect dfs = [])) as [Hnil | Hne].
  - left. split; [by apply collect_nil_iff|].
    by apply get_available_date_range_None.
  - right.
    destruct (get_available_date_range_zone z dfs Hz Hne)
      as (gmin & gmax & Hmin & Hmax & Heq).
    pose proof (collect_zone z dfs Hz) as Hcol.
    rewrite Forall_forall in Hcol.
    destruct (list_min_spec _ _ Hmin) as [Hin _].
    destruct (list_max_spec _ _ Hmax) as [Hin' Hle].
    exists gmin, gmax. repeat split; try done; by auto.
Qed.

(** A frame of the filtered collection is the filter of a frame of the
    collection. *)
Lemma elem_of_filtered dfs (s e : Date) df' :
  Some df' ∈ (λ d, filter_dates d s e) <$> dfs →
  ∃ df, Some df ∈ dfs ∧ df' = filter (in_window s e) df.
Proof.
  intros (d & Heq & Hd)%list_elem_of_fmap.
  destruct d as [df|]; [|discriminate].
  rewrite filter_dates_Some in Heq. injection Heq as ->.
  by exists df.
Qed.

Lemma in_zone_filtered (z : option Z) dfs (s e : Date) :
  in_zone z dfs → in_zone z ((λ d, filter_dates d s e) <$> dfs).
Proof.
  intros Hz df' r (df & Hdf & ->)%elem_of_filtered
    [_ Hr]%list_elem_of_filter.
  by apply (Hz df r).
Qed.

(** X1: for datasets whose timestamps are all shown in one zone, the range
    computer returns and does not raise; the two bounds come together,
    both absent or both present, and when present the lower one is not
    after the upper one. *)
Theorem bounds_paired_and_ordered dfs :
  one_zone dfs →
  get_available_date_range dfs = inr (None, None)
  ∨ ∃ mn mx : Date,
      get_available_date_range dfs = inr (Some mn, Some mx) ∧ mn ≤ mx.
Proof.
  intros [z Hz].
  destruct (bounds_cases z dfs Hz)
    as [[_ Hnone] | (gmin & gmax & _ & _ & Hz1 & Hz2 & Hle & Heq)].
  - by left.
  - right. exists (date gmin), (date gmax).
    split; [exact Heq|]. apply date_mono; [congruence | exact Hle].
Qed.

(** X2: the range computer returns a lower bound that is [None], which is
    what the script tests, exactly when every dataset is absent or empty:
    one record anywhere is enough for it to return dates or to raise. *)
Theorem no_bounds_iff_no_data dfs :
  (∃ max_date, get_available_date_range dfs = inr (None, max_date))
  ↔ Forall no_data dfs.
Proof.
  destruct (get_available_date_range_shape dfs)
    as [[Hall Hnone] | [(mn & mx & Heq) | [Hdata Heq]]].
  - split; [done|]. intros _. by exists None.
  - rewrite Heq. split.
    + intros (? & [=]).
    + intros Hall%collect_nil_iff%get_available_date_range_None. congruence.
  - rewrite Heq. split; [intros (? & [=]) | done].
Qed.

(** X3: for datasets whose timestamps are all shown in one zone, the
    bounds do not depend on the order in which the datasets are listed. *)
Theorem bounds_order_independent dfs dfs' :
  one_zone dfs →
  dfs ≡ₚ dfs' →
  get_available_date_range dfs = get_available_date_range dfs'.
Proof.
  intros [z Hz] Hp.
  assert (in_zone z dfs') as Hz'.
  { intros df r Hdf Hr. apply (Hz df r); [by rewrite Hp | done]. }
  rewrite (get_available_date_range_zone_eq z dfs Hz).
  rewrite (get_available_date_range_zone_eq z dfs' Hz').
  pose proof (collect_zone z dfs Hz) as Hcol.
  apply collect_perm in Hp.
  by rewrite (list_min_perm z _ _ Hcol Hp), (list_max_perm z _ _ Hcol Hp).
Qed.

(** X4: a dataset that is absent or empty has no influence on the bounds,
    wherever it stands in the collection. *)
Theorem bounds_ignore_no_data dfs1 d dfs2 :
  no_data d →
  get_available_date_range (dfs1 ++ d :: dfs2)
  = get_available_date_range (dfs1 ++ dfs2).
Proof.
  intros Hnd. apply get_available_date_range_collect.
  rewrite !collect_app, collect_cons.
  by rewrite (collect_step_no_data d Hnd).
Qed.

(** X5: for datasets whose timestamps are all shown in one zone, more
    datasets can only widen the bounds.  When every dataset of [dfs] is
    also in [dfs'] and [dfs] has bounds, [dfs'] has bounds too, with a
    lower bound that is no later and an upper bound that is no earlier. *)
Theorem bounds_widen dfs dfs' (mn mx : Date) :
  one_zone dfs' →
  dfs ⊆ dfs' →
  get_available_date_range dfs = inr (Some mn, Some mx) →
  ∃ mn' mx' : Date,
    get_available_date_range dfs' = inr (Some mn', Some mx')
    ∧ mn' ≤ mn ∧ mx ≤ mx'.
Proof.
  intros [z Hz'] Hsub (gmin & gmax & Hmin & Hmax & -> & ->)%bounds_present.
  assert (∀ t, t ∈ collect dfs → t ∈ collect dfs') as Hcol.
  { intros t (df & Hdf & Hne & Hext)%elem_of_collect.
    apply elem_of_collect. exists df. split; [by apply Hsub | done]. }
  destruct (list_min_spec _ _ Hmin) as [Hmin_in _].
  destruct (list_max_spec _ _ Hmax) as [Hmax_in _].
  pose proof (collect_zone z dfs' Hz') as Hzone.
  rewrite Forall_forall in Hzone.
  destruct (bounds_cases z dfs' Hz')
    as [[Hall _] | (gmin' & gmax' & Hmin' & Hmax' & Hz1 & Hz2 & _ & Heq)].
  - apply collect_nil_iff in Hall. specialize (Hcol _ Hmin_in).
    rewrite Hall in Hcol. inversion Hcol.
  - exists (date gmin'), (date gmax'). split; [exact Heq|].
    destruct (list_min_spec _ _ Hmin') as [_ Hle].
    destruct (list_max_spec _ _ Hmax') as [_ Hge].
    split; apply date_mono.
    + rewrite Hz1. symmetry. by apply Hzone, Hcol.
    + by apply Hle, Hcol.
    + rewrite Hz2. by apply Hzone, Hcol.
    + by apply Hge, Hcol.
Qed.

(** X6: for datasets whose timestamps are all shown in one zone, the bounds
    of what is left after the filter lie inside the window and inside the
    bounds of the unfiltered collection. *)
Theorem bounds_after_filter dfs (s e mn mx mn' mx' : Date) :
  one_zone dfs →
  get_available_date_range dfs = inr (Some mn, Some mx) →
  get_available_date_range ((λ d, filter_dates d s e) <$> dfs)
    = inr (Some mn', Some mx') →
  Z.max s mn ≤ mn' ∧ mn' ≤ mx' ∧ mx' ≤ Z.min e mx.
Proof.
  intros [z Hz] Hb (gmin' & gmax' & Hmin' & Hmax' & -> & ->)%bounds_present.
  pose proof (in_zone_filtered z dfs s e Hz) as Hzf.
  pose proof (collect_zone z _ Hzf) as Hzone.
  rewrite Forall_forall in Hzone.
  assert (∀ t, t ∈ collect ((λ d, filter_dates d s e) <$> dfs) →
            s ≤ date t ≤ e ∧ mn ≤ date t ≤ mx) as Hin.
  { intros t (df' & r & Hdf' & Hr & <-)%collect_elem_record.
    apply elem_of_filtered in Hdf' as (df & Hdf & ->).
    apply list_elem_of_filter in Hr as [Hwin Hr].
    split; [exact Hwin|].
    apply (bounds_enclose_dates z dfs mn mx Hz Hb df r Hdf Hr). }
  destruct (list_min_spec _ _ Hmin') as [Hmin_in Hmin_le].
  destruct (list_max_spec _ _ Hmax') as [Hmax_in _].
  destruct (Hin _ Hmin_in) as [? ?], (Hin _ Hmax_in) as [? ?].
  assert (date gmin' ≤ date gmax').
  { apply date_mono; [|by apply Hmin_le].
    rewrite (Hzone _ Hmin_in). symmetry. by apply Hzone. }
  lia.
Qed.

End RangeMore.

(** ** More on the validator and on the script *)

(** The validator only adds to the page. *)
Lemma validate_date_range_frame (s e : Date) (min_date max_date : option Date)
    (log : list StCall) :
  validate_date_range s e min_date max_date log
  = ((run (validate_date_range s e min_date max_date)).1,
     log ++ (run (validate_date_range s e min_date max_date)).2).
Proof.
  unfold run, validate_date_range, outside.
  destruct min_date as [mn|]; [|by rewrite app_nil_r].
  destruct (s >? e); [reflexivity|].
  destruct (e <? mn); [reflexivity|].
  destruct max_date as [mx|]; [|by rewrite app_nil_r].
  cbn. destruct (s >? mx); cbn; by rewrite ?app_nil_r.
Qed.

(** X7: the validator raises in one situation only: a lower bound without
    an upper bound, and a window that passes the two earlier tests, so that
    the upper bound has to be compared.  In every other situation it
    returns a boolean; it never stops the script itself. *)
Theorem validate_date_range_raises (s e : Date)
    (min_date max_date : option Date) :
  ((run (validate_date_range s e min_date max_date)).1 = Raised TypeError
   ↔ ∃ mn, min_date = Some mn ∧ max_date = None ∧ s ≤ e ∧ mn ≤ e)
  ∧ ((∃ b, (run (validate_date_range s e min_date max_date)).1 = Returned b)
     ∨ (run (validate_date_range s e min_date max_date)).1 = Raised TypeError).
Proof.
  unfold run, validate_date_range, outside.
  destruct min_date as [mn|]; cbn.
  2:{ split; [|left; by eexists].
      split; [discriminate | intros (? & ? & _); discriminate]. }
  destruct (Z.gtb_spec s e) as [Hgt | Hle]; cbn.
  { split; [|left; by eexists].
    split; [discriminate | intros (? & _ & _ & ? & _); lia]. }
  destruct (Z.ltb_spec e mn) as [Hlt | Hge]; cbn.
  { split; [|left; by eexists].
    split; [discriminate | intros (? & [= <-] & _ & _ & ?); lia]. }
  destruct max_date as [mx|]; cbn.
  - split; [|left; destruct (s >? mx); by eexists].
    split; [destruct (s >? mx); discriminate
           | intros (? & _ & ? & _); discriminate].
  - split; [|by right].
    split; [|done]. intros _. by exists mn.
Qed.

(** X8: the validator leaves what is already on the page as it is, shows
    at most one message, and shows none when it accepts the window. *)
Theorem validate_date_range_page (s e : Date)
    (min_date max_date : option Date) (log : list StCall) :
  ∃ (o : Outcome bool) (calls : list StCall),
    validate_date_range s e min_date max_date log = (o, log ++ calls)
    ∧ (length calls ≤ 1)%nat
    ∧ (o = Returned true → calls = []).
Proof.
  rewrite validate_date_range_frame.
  eexists _, _. split; [reflexivity|].
  unfold run, validate_date_range, outside.
  unfold mbind, script_bind, bind, mret, script_ret, emit, raise.
  destruct min_date as [mn|]; [|cbn; split; [lia | done]].
  destruct (s >? e); [cbn; split; [lia | discriminate]|].
  destruct (e <? mn); [cbn; split; [lia | discriminate]|].
  destruct max_date as [mx|]; [|cbn; split; [lia | discriminate]].
  destruct (s >? mx); cbn; (split; [lia | done]).
Qed.

(** X9: the two date pickers are limited to the bounds (lines 161-162).
    For a window whose two ends lie within the bounds the range error block
    is never shown: the window is accepted when its start is not after its
    end, and answered by the start-after-end message otherwise. *)
Theorem validate_date_range_within_bounds (s e mn mx : Date) :
  mn ≤ s ≤ mx →
  mn ≤ e ≤ mx →
  run (validate_date_range s e (Some mn) (Some mx))
  = if s >? e then (Returned false, [st_error start_after_end_msg])
    else (Returned true, []).
Proof.
  intros Hs He. rewrite validate_date_range_run.
  destruct (s >? e); [reflexivity|].
  destruct (Z.ltb_spec e mn); [lia|].
  destruct (Z.gtb_spec s mx); [lia | reflexivity].
Qed.

(** The date pickers of lines 161-162. *)
Lemma date_input_returns (mn mx v picked : Date) (log : list StCall) :
  mn ≤ v ≤ mx →
  date_input mn (Some mx) (Some v) picked log = (Returned picked, log).
Proof.
  intros Hv. unfold date_input.
  destruct (Z.gtb_spec mn mx); [lia|].
  destruct (Z.ltb_spec v mn); [lia|].
  destruct (Z.gtb_spec v mx); [lia|]. reflexivity.
Qed.

Lemma date_input_raises (mn mx : Date) (value : option Date)
    (picked : Date) (log : list StCall) :
  mn > mx →
  date_input mn (Some mx) value picked log
  = (Raised StreamlitAPIException, log).
Proof.
  intros Hinv. unfold date_input.
  destruct (Z.gtb_spec mn mx); [reflexivity | lia].
Qed.

Section ScriptProperties.
Context {Cell : Type}.

Implicit Types (loaded : list (option (DataFrame Cell))).

(** An exception of the range computer ends the script. *)
Lemma main_raises loaded (s e : Date) (err : PyError) :
  get_available_date_range loaded = inl err →
  run (main loaded s e) = (Raised err, []).
Proof. intros Hb. unfold run, main. by rewrite Hb. Qed.

(** Bounds in the wrong order end the script in the first date picker. *)
Lemma main_inverted_bounds loaded (s e mn mx : Date) :
  get_available_date_range loaded = inr (Some mn, Some mx) →
  mn > mx →
  run (main loaded s e) = (Raised StreamlitAPIException, []).
Proof.
  intros Hb Hinv. unfold run, main. rewrite Hb.
  unfold mbind, script_bind, bind, lift.
  by rewrite (date_input_raises mn mx (Some mn) s [] Hinv).
Qed.

(** With bounds in the right order the script goes on as the validator
    decides. *)
Lemma main_with_bounds loaded (s e mn mx : Date) :
  get_available_date_range loaded = inr (Some mn, Some mx) →
  mn ≤ mx →
  run (main loaded s e)
  = match run (validate_date_range s e (Some mn) (Some mx)) with
    | (Returned true, log) =>
        (Returned ((λ d, filter_dates d s e) <$> loaded), log)
    | (Returned false, log) => (Stopped, log)
    | (Stopped, log) => (Stopped, log)
    | (Raised err, log) => (Raised err, log)
    end.
Proof.
  intros Hb Hle. unfold run, main. rewrite Hb.
  unfold mbind, script_bind, bind, lift.
  rewrite (date_input_returns mn mx mn s []) by lia.
  rewrite (date_input_returns mn mx mx e []) by lia.
  unfold mret, script_ret.
  destruct (validate_date_range s e (Some mn) (Some mx) [])
    as [[[|]| |err] log]; reflexivity.
Qed.

(** X10: the script up to the filtering ends in one of six ways.  Without
    data it shows that no valid data was found and stops.  When the range
    computer raises [TypeError] (a tz-naive timestamp beside a tz-aware
    one), so does the script.  With bounds [(mn, mx)] whose lower bound is
    after the upper one, the first date picker raises
    [StreamlitAPIException].  With bounds in the right order the script
    stops on the start-after-end message when the start is after the end,
    stops on the range error block when the window misses the bounds, and
    otherwise shows nothing and hands on every dataset filtered with the
    same window, in the order in which the datasets were loaded.  When all
    timestamps are shown in one zone the script does not raise. *)
Theorem main_outcomes loaded (s e : Date) :
  ((Forall no_data loaded
    ∧ run (main loaded s e) = (Stopped, [st_error no_valid_data_msg]))
   ∨ (get_available_date_range loaded = inl TypeError
      ∧ run (main loaded s e) = (Raised TypeError, []))
   ∨ ∃ mn mx : Date,
       get_available_date_range loaded = inr (Some mn, Some mx)
       ∧ ((mn > mx
           ∧ run (main loaded s e) = (Raised StreamlitAPIException, []))
          ∨ (mn ≤ mx ∧ s > e
             ∧ run (main loaded s e)
               = (Stopped, [st_error start_after_end_msg]))
          ∨ (mn ≤ mx ∧ s ≤ e ∧ (e < mn ∨ mx < s)
             ∧ run (main loaded s e)
               = (Stopped, [st_markdown_date_range_error mn (Some mx)]))
          ∨ (mn ≤ mx ∧ s ≤ e ∧ mn ≤ e ∧ s ≤ mx
             ∧ run (main loaded s e)
               = (Returned ((λ d, filter_dates d s e) <$> loaded), []))))
  ∧ (one_zone loaded → ∀ err, (run (main loaded s e)).1 ≠ Raised err).
Proof.
  assert (∀ mn mx,
            get_available_date_range loaded = inr (Some mn, Some mx) →
            mn ≤ mx →
            (s > e
             ∧ run (main loaded s e)
               = (Stopped, [st_error start_after_end_msg]))
            ∨ (s ≤ e ∧ (e < mn ∨ mx < s)
               ∧ run (main loaded s e)
                 = (Stopped, [st_markdown_date_range_error mn (Some mx)]))
            ∨ (s ≤ e ∧ mn ≤ e ∧ s ≤ mx
               ∧ run (main loaded s e)
                 = (Returned ((λ d, filter_dates d s e) <$> loaded), [])))
    as Hordered.
  { intros mn mx Heq Hle.
    rewrite (main_with_bounds loaded s e mn mx Heq Hle).
    rewrite validate_date_range_run.
    destruct (Z.gtb_spec s e) as [Hgt | Hse]; [left; split; [lia | done]|].
    right.
    destruct (Z.ltb_spec e mn) as [Hlt | Hge]; cbn [orb].
    { left. split; [lia|]. split; [by left | done]. }
    destruct (Z.gtb_spec s mx) as [Hgt | Hle'].
    { left. split; [lia|]. split; [right; lia | done]. }
    right. by repeat split. }
  split.
  - destruct (get_available_date_range_shape loaded)
      as [[Hall Hnone] | [(mn & mx & Heq) | [_ Heq]]].
    + left. split; [exact Hall|]. unfold run, main. by rewrite Hnone.
    + right; right. exists mn, mx. split; [exact Heq|].
      destruct (Z_le_gt_dec mn mx) as [Hle | Hgt].
      * right.
        destruct (Hordered mn mx Heq Hle) as [(? & ?) | [(? & ? & ?) | ?]].
        -- left. by repeat split.
        -- right; left. by repeat split.
        -- right; right. split; [exact Hle | done].
      * left. split; [exact Hgt|].
        by apply (main_inverted_bounds loaded s e mn mx).
    + right; left. split; [exact Heq|]. by apply main_raises.
  - intros [z Hz] err.
    destruct (bounds_cases z loaded Hz)
      as [[_ Hnone] | (gmin & gmax & _ & _ & Hz1 & Hz2 & Hle & Heq)].
    + unfold run, main. by rewrite Hnone.
    + assert (date gmin ≤ date gmax) as Hd
        by (apply date_mono; [congruence | exact Hle]).
      destruct (Hordered _ _ Heq Hd)
        as [(_ & ->) | [(_ & _ & ->) | (_ & _ & _ & ->)]]; discriminate.
Qed.

End ScriptProperties.

(** ** More on the date filter *)

Section FilterMore.
Context {Cell : Type}.

Implicit Types (df : DataFrame Cell) (d : option (DataFrame Cell)).

(** X11: filtering with one window and then with another is filtering once
    with their intersection, so the order of the two filters does not
    matter. *)
Theorem filter_dates_compose d (s1 e1 s2 e2 : Date) :
  filter_dates (filter_dates d s1 e1) s2 e2
  = filter_dates d (Z.max s1 s2) (Z.min e1 e2)
  ∧ filter_dates (filter_dates d s1 e1) s2 e2
    = filter_dates (filter_dates d s2 e2) s1 e1.
Proof.
  destruct d as [df|]; [|by split].
  rewrite !filter_dates_Some, !list_filter_filter.
  split; f_equal; apply list_filter_iff; unfold in_window; intros r; lia.
Qed.

(** X12: a window whose start is after its end keeps no record of a present
    dataset: the result is present and empty. *)
Theorem filter_dates_inverted df (s e : Date) :
  s > e → filter_dates (Some df) s e = Some [].
Proof.
  intros Hse. rewrite filter_dates_Some. f_equal.
  induction df as [|r df IH]; [reflexivity|].
  rewrite filter_cons_False; [exact IH|].
  unfold in_window. lia.
Qed.

(** X13: two windows that follow each other without a gap, the first ending
    on day [m] and the second starting on day [m + 1], split the records of
    the window that covers both: every record of the large window is in
    exactly one of the two. *)
Theorem filter_dates_adjacent df (s m e : Date) :
  s ≤ m + 1 →
  m ≤ e →
  ∃ out1 out2 out,
    filter_dates (Some df) s m = Some out1
    ∧ filter_dates (Some df) (m + 1) e = Some out2
    ∧ filter_dates (Some df) s e = Some out
    ∧ out1 ++ out2 ≡ₚ out
    ∧ ∀ r, ¬ (r ∈ out1 ∧ r ∈ out2).
Proof.
  intros Hs He. rewrite !filter_dates_Some.
  eexists _, _, _. repeat (split; [reflexivity|]). split.
  - induction df as [|r df IH]; [reflexivity|].
    rewrite !filter_cons.
    destruct (decide (in_window s m r)) as [H1 | H1];
      destruct (decide (in_window (m + 1) e r)) as [H2 | H2];
      destruct (decide (in_window s e r)) as [H3 | H3];
      unfold in_window in H1, H2, H3; try lia.
    + cbn. by rewrite IH.
    + rewrite <- Permutation_middle. by rewrite IH.
    + exact IH.
  - intros r [[H1 _]%list_elem_of_filter [H2 _]%list_elem_of_filter].
    unfold in_window in H1, H2. lia.
Qed.

End FilterMore.

(** * Properties of the dashboards *)

(** ** Comparisons and the least value of a series *)

Lemma Qlt_bool_iff (x y : Q) : Qlt_bool x y = true ↔ (x < y)%Q.
Proof.
  unfold Qlt_bool. rewrite negb_true_iff. split.
  - intros Hf. apply Qnot_le_lt. intros Hle.
    apply Qle_bool_iff in Hle. congruence.
  - intros Hlt. destruct (Qle_bool y x) eqn:Hb; [|reflexivity].
    apply Qle_bool_iff in Hb. exfalso. by apply (Qlt_not_le x y).
Qed.

Lemma Qlt_bool_false (x y : Q) : Qlt_bool x y = false ↔ (y <= x)%Q.
Proof.
  unfold Qlt_bool. rewrite negb_false_iff. apply Qle_bool_iff.
Qed.

Lemma Qle_bool_false (x y : Q) : Qle_bool x y = false ↔ (y < x)%Q.
Proof.
  split.
  - intros Hf. apply Qnot_le_lt. intros Hle.
    apply Qle_bool_iff in Hle. congruence.
  - intros Hlt. destruct (Qle_bool x y) eqn:Hb; [|reflexivity].
    apply Qle_bool_iff in Hb. exfalso. by apply (Qlt_not_le y x).
Qed.

Lemma Qmin_cases (x y : Q) : Qmin x y = x ∨ Qmin x y = y.
Proof.
  unfold Qmin, GenericMinMax.gmin. destruct (x ?= y)%Q; auto.
Qed.

Lemma foldl_Qmin_spec (xs : list Q) (x : Q) :
  foldl Qmin x xs ∈ x :: xs
  ∧ ∀ y, y ∈ x :: xs → (foldl Qmin x xs <= y)%Q.
Proof.
  revert x. induction xs as [|a xs IH]; intros x; cbn [foldl].
  - split; [left|]. intros y ->%list_elem_of_singleton. apply Qle_refl.
  - destruct (IH (Qmin x a)) as [Hin Hle]. split.
    + apply elem_of_cons in Hin as [-> | Hin].
      * destruct (Qmin_cases x a) as [-> | ->]; [left | right; left].
      * right; right; exact Hin.
    + intros y Hy.
      assert (foldl Qmin (Qmin x a) xs <= Qmin x a)%Q as Hhd
        by (apply Hle; left).
      apply elem_of_cons in Hy as [-> | Hy].
      * eapply Qle_trans; [exact Hhd | apply Q.le_min_l].
      * apply elem_of_cons in Hy as [-> | Hy].
        -- eapply Qle_trans; [exact Hhd | apply Q.le_min_r].
        -- apply Hle. by right.
Qed.

Lemma below_92_iff (s : list Q) :
  below_92 s = true ↔ ∃ x, x ∈ s ∧ (x < 92)%Q.
Proof.
  unfold below_92, series_min. destruct s as [|x xs].
  - split; [discriminate | intros (y & Hy & _); inversion Hy].
  - destruct (foldl_Qmin_spec xs x) as [Hin Hle].
    rewrite Qlt_bool_iff. split.
    + intros Hlt. by exists (foldl Qmin x xs).
    + intros (y & Hy & Hlt).
      eapply Qle_lt_trans; [apply (Hle y Hy) | exact Hlt].
Qed.

(** ** Reading a column *)

Lemma getitem_inr (t : Table) (c : string) (s : list Q) :
  getitem t c = inr s ↔
  c ∈ columns t ∧ mapM (λ r, cell c (cells r)) (rows t) = Some s.
Proof.
  unfold getitem. destruct (decide (c ∈ columns t)) as [Hc | Hc].
  - destruct (mapM _ (rows t)) as [s'|].
    + split; [by intros [= ->] | by intros [_ [= ->]]].
    + split; [discriminate | by intros [_ ?]].
  - split; [discriminate | by intros [? _]].
Qed.

Lemma getitem_no_rows (cols : list string) (c : string) :
  getitem (mkTable cols []) c
  = if decide (c ∈ cols) then inr [] else inl (KeyError c).
Proof. unfold getitem. cbn. by destruct (decide (c ∈ cols)). Qed.

Lemma latest_int_no_rows (cols : list string) (c : string) :
  latest_int (Some (mkTable cols [])) c
  = if decide (c ∈ cols) then inl IndexError else inl (KeyError c).
Proof.
  unfold latest_int. rewrite getitem_no_rows.
  by destruct (decide (c ∈ cols)).
Qed.

Lemma latest_int_None (c : string) : latest_int None c = inr 0.
Proof. reflexivity. Qed.

(** A filter that keeps no row leaves the header alone. *)
Lemma table_filter_dates_none_kept (tb : Table) (s e : Date) :
  Forall (λ r, ¬ in_window s e r) (rows tb) →
  table_filter_dates (Some tb) s e = Some (mkTable (columns tb) []).
Proof.
  intros Hall. unfold table_filter_dates. rewrite filter_dates_Some.
  do 2 f_equal. induction Hall as [|r l Hr _ IH]; [reflexivity|].
  by rewrite filter_cons_False.
Qed.

Lemma sublist_mapM_filter (c : string) (P : Row Q → Prop)
    `{!∀ r, Decision (P r)} (l : list (Row Q)) (s0 : list Q) :
  mapM (λ r, cell c (cells r)) l = Some s0 →
  ∃ s', mapM (λ r, cell c (cells r)) (filter P l) = Some s'
        ∧ s' `sublist_of` s0.
Proof.
  rewrite mapM_Some. induction 1 as [|r x l s0 Hx _ (s' & Hs' & Hsub)].
  - exists []. by split.
  - rewrite filter_cons. destruct (decide (P r)).
    + exists (x :: s'). split; [|by constructor].
      apply mapM_Some. constructor; [exact Hx | by apply mapM_Some].
    + exists s'. split; [exact Hs' | by constructor].
Qed.

(** X14: filtering a frame cannot make a column unreadable: a column that
    can be read before the filter can be read after it, and its values
    after the filter are a subsequence of its values before. *)
Theorem getitem_after_filter (tb : Table) (c : string) (s0 : list Q)
    (s e : Date) :
  getitem tb c = inr s0 →
  ∃ tb' s',
    table_filter_dates (Some tb) s e = Some tb'
    ∧ columns tb' = columns tb
    ∧ getitem tb' c = inr s'
    ∧ s' `sublist_of` s0.
Proof.
  intros [Hc Hs0]%getitem_inr.
  destruct (sublist_mapM_filter c (in_window s e) (rows tb) s0 Hs0)
    as (s' & Hs' & Hsub).
  exists (mkTable (columns tb) (filter (in_window s e) (rows tb))), s'.
  split; [unfold table_filter_dates; by rewrite filter_dates_Some|].
  split; [reflexivity|]. split; [|exact Hsub].
  by apply getitem_inr.
Qed.

(** ** The role header *)

(** X15: every role that the select box offers has a colour in the theme,
    so its header is drawn; for any other string the header raises
    [KeyError]. *)
Theorem role_header_roles (role : string) :
  (role ∈ role_options
   ∧ ∃ colour,
       ROLE_THEME !! role = Some colour
       ∧ role_header role
         = inr [w_markdown ("<h1 style='color:" +:+ colour +:+ ";'>"
                            +:+ role +:+ " Dashboard</h1>")])
  ∨ ((role ∉ role_options) ∧ role_header role = inl (KeyError role)).
Proof.
  destruct (decide (role ∈ role_options)) as [Hin | Hout].
  - left. split; [exact Hin|].
    unfold role_options in Hin.
    repeat (apply elem_of_cons in Hin as [-> | Hin]);
      [eexists; split; vm_compute; reflexivity ..|].
    inversion Hin.
  - right. split; [exact Hout|].
    unfold role_header.
    destruct (ROLE_THEME !! role) as [colour|] eqn:Hlook; [|reflexivity].
    exfalso. apply Hout.
    unfold ROLE_THEME in Hlook. apply elem_of_list_to_map_2 in Hlook.
    unfold role_options.
    repeat (apply elem_of_cons in Hlook as [[= -> _] | Hlook];
            [set_solver|]).
    inversion Hlook.
Qed.

(** ** The athlete's metrics *)

(** X16: one source that is present without a single row is enough for the
    athlete's row of metrics not to be drawn at all: the script raises,
    whatever the other two sources hold. *)
Theorem athlete_metrics_empty_source (energy calories activity : option Table)
    (cols : list string) :
  energy = Some (mkTable cols [])
  ∨ calories = Some (mkTable cols [])
  ∨ activity = Some (mkTable cols []) →
  ∃ err, athlete_metrics energy calories activity = inl err.
Proof.
  assert (∀ c, ∃ err, latest_int (Some (mkTable cols [])) c = inl err)
    as Hempty.
  { intros c. rewrite latest_int_no_rows.
    destruct (decide (c ∈ cols)); by eexists. }
  unfold athlete_metrics.
  intros [-> | [-> | ->]].
  - destruct (Hempty "energy_score") as (err & ->). by eexists.
  - destruct (latest_int energy "energy_score"); [by eexists|].
    destruct (Hempty "calories") as (err & ->). by eexists.
  - destruct (latest_int energy "energy_score"); [by eexists|].
    destruct (latest_int calories "calories"); [by eexists|].
    destruct (Hempty "active_minutes") as (err & ->). by eexists.
Qed.

(** X17: when the energy frame has its score column and none of its
    records falls in the window, the filtered frame is present and empty,
    and the athlete's metrics end in [IndexError], also for a window that
    the validator accepts. *)
Theorem athlete_metrics_window_without_energy (tb : Table)
    (calories activity : option Table) (s e : Date) :
  "energy_score" ∈ columns tb →
  Forall (λ r, ¬ in_window s e r) (rows tb) →
  athlete_metrics (table_filter_dates (Some tb) s e)
    (table_filter_dates calories s e) (table_filter_dates activity s e)
  = inl IndexError.
Proof.
  intros Hcol Hall. rewrite (table_filter_dates_none_kept tb s e Hall).
  unfold athlete_metrics. rewrite latest_int_no_rows.
  by rewrite decide_True.
Qed.

Lemma py_int_integer_part (x : Q) : integer_part x (py_int x).
Proof.
  destruct x as [n d]. unfold integer_part, py_int, Qle, Qlt.
  cbn [Qnum Qden inject_Z].
  pose proof (Z.quot_rem' n (Z.pos d)) as Hq.
  split; intros Hsign.
  - pose proof (Z.rem_bound_pos n (Z.pos d)) as Hr.
    specialize (Hr ltac:(lia) ltac:(lia)). nia.
  - pose proof (Z.rem_bound_pos_neg n (Z.pos d)) as Hr.
    specialize (Hr ltac:(lia) ltac:(lia)). nia.
Qed.

(** The last value of a column is the cell of the last row. *)
Lemma mapM_last {A B} (f : A → option B) (l : list A) (k : list B) (y : B) :
  mapM f l = Some k → last k = Some y →
  ∃ a, last l = Some a ∧ f a = Some y.
Proof.
  rewrite mapM_Some. intros Hall. revert y.
  induction Hall as [|a b l k Hab Hall IH]; intros y; [discriminate|].
  destruct Hall as [|a' b' l' k' Hab' Hall'].
  - intros [= <-]. by exists a.
  - rewrite !last_cons_cons. apply IH.
Qed.

Lemma latest_int_shown (t : option Table) (c : string) (v : Z) :
  latest_int t c = inr v → shown_value t c v.
Proof.
  unfold latest_int, shown_value. destruct t as [tb|]; [|by intros [= <-]].
  destruct (getitem tb c) as [|s] eqn:Hs; [discriminate|].
  apply getitem_inr in Hs as [_ Hs].
  unfold iloc_last. destruct (last s) as [x|] eqn:Hlast; [|discriminate].
  intros [= <-].
  destruct (mapM_last _ _ _ _ Hs Hlast) as (r & Hr & Hx).
  exists r, x. split; [exact Hr|]. split; [exact Hx|].
  apply py_int_integer_part.
Qed.

(** X18: when the athlete's row is drawn it holds exactly three metrics,
    energy score, calories and active minutes in that order.  Each shows 0
    when its source is absent, and otherwise the value that the last row of
    its source has under its column, with the fraction cut off towards
    zero. *)
Theorem athlete_metrics_shape (energy calories activity : option Table)
    (calls : list Widget) :
  athlete_metrics energy calories activity = inr calls →
  ∃ e c a : Z,
    calls = [w_columns 3; w_metric 0 "Energy Score" e;
             w_metric 1 "Calories" c; w_metric 2 "Active Minutes" a]
    ∧ shown_value energy "energy_score" e
    ∧ shown_value calories "calories" c
    ∧ shown_value activity "active_minutes" a.
Proof.
  unfold athlete_metrics.
  destruct (latest_int energy "energy_score") as [|e] eqn:He; [discriminate|].
  destruct (latest_int calories "calories") as [|c] eqn:Hc; [discriminate|].
  destruct (latest_int activity "active_minutes") as [|a] eqn:Ha;
    [discriminate|].
  intros [= <-]. exists e, c, a.
  split; [reflexivity|].
  repeat split; by apply latest_int_shown.
Qed.

(** ** The blood oxygen alert *)

(** X19: with a readable oxygen column, the low oxygen alert is shown
    exactly when some reading is below 92; a frame without rows shows no
    alert and raises nothing. *)
Theorem doctor_spo2_alert (tb : Table) (s : list Q) :
  getitem tb "oxygen_percent" = inr s →
  (doctor_spo2 (Some tb) = inr [w_error low_spo2_msg]
   ∧ ∃ x, x ∈ s ∧ (x < 92)%Q)
  ∨ (doctor_spo2 (Some tb) = inr []
     ∧ ∀ x, x ∈ s → (92 <= x)%Q).
Proof.
  intros Hs. unfold doctor_spo2. rewrite Hs.
  destruct (below_92 s) eqn:Hb.
  - left. split; [reflexivity | by apply below_92_iff].
  - right. split; [reflexivity|]. intros x Hx.
    apply Qnot_lt_le. intros Hlt.
    assert (below_92 s = true) as Ht by (apply below_92_iff; by exists x).
    congruence.
Qed.

(** ** The heart rate zones *)

Lemma cut_label (bins : list Q) (labels : list string) (x : Q) (l : string) :
  cut bins labels x = Some l → l ∈ labels.
Proof.
  revert labels. induction bins as [|lo bins IH]; intros labels; [done|].
  destruct bins as [|hi rest]; [done|].
  destruct labels as [|l' ls]; [done|].
  cbn [cut]. destruct (Qlt_bool lo x && Qle_bool x hi).
  - intros [= ->]. left.
  - intros Hcut. right. by apply IH.
Qed.

(** One more reading adds one to the count of its category. *)
Lemma value_counts_cons (categories : list string) (z : option string)
    (s : list (option string)) :
  sum_list (value_counts categories (z :: s)).*2
  = (length (filter (λ l, z = Some l) categories)
     + sum_list (value_counts categories s).*2)%nat.
Proof.
  unfold value_counts.
  induction categories as [|l categories IH]; [reflexivity|].
  rewrite !fmap_cons, !filter_cons. cbn [snd sum_list sum_list_with].
  change (sum_list_with id ?l) with (sum_list l).
  rewrite IH.
  destruct (decide (z = Some l)); cbn [length]; unfold id; lia.
Qed.

Lemma value_counts_labels (categories : list string)
    (s : list (option string)) :
  (value_counts categories s).*1 = categories.
Proof.
  unfold value_counts. induction categories as [|l categories IH]; [done|].
  rewrite !fmap_cons. cbn [fst]. by rewrite IH.
Qed.

Lemma hr_label_once (l : string) :
  l ∈ hr_labels →
  length (filter (λ l', Some l = Some l') hr_labels) = 1%nat.
Proof.
  unfold hr_labels. intros Hin.
  repeat (apply elem_of_cons in Hin as [-> | Hin]; [by vm_compute|]).
  inversion Hin.
Qed.

Ltac zone_tests :=
  repeat match goal with
    | |- context [Qlt_bool ?a ?b] =>
        let H := fresh "Hlt" in
        destruct (Qlt_bool a b) eqn:H;
        [apply Qlt_bool_iff in H | apply Qlt_bool_false in H]
    | |- context [Qle_bool ?a ?b] =>
        let H := fresh "Hle" in
        destruct (Qle_bool a b) eqn:H;
        [apply Qle_bool_iff in H | apply Qle_bool_false in H]
    end.

(** X20: the five zones are the intervals (0, 100], (100, 120],
    (120, 140], (140, 160] and (160, 220], each closed on the right, and a
    rate at or below 0 or above 220 is in no zone. *)
Theorem hr_zone_boundaries (bpm : Q) :
  (hr_zone bpm = Some "Z1" ↔ (0 < bpm ∧ bpm <= 100)%Q)
  ∧ (hr_zone bpm = Some "Z2" ↔ (100 < bpm ∧ bpm <= 120)%Q)
  ∧ (hr_zone bpm = Some "Z3" ↔ (120 < bpm ∧ bpm <= 140)%Q)
  ∧ (hr_zone bpm = Some "Z4" ↔ (140 < bpm ∧ bpm <= 160)%Q)
  ∧ (hr_zone bpm = Some "Z5" ↔ (160 < bpm ∧ bpm <= 220)%Q)
  ∧ (hr_zone bpm = None ↔ (bpm <= 0 ∨ 220 < bpm)%Q).
Proof.
  unfold hr_zone, hr_bins, hr_labels. cbn [cut].
  zone_tests; cbn [andb];
    repeat split; try discriminate; try (intros; lra);
    try (intros [? ?]; lra); try (intros [? | ?]; lra);
    try reflexivity; try (intros _; lra);
    try (intros _; first [left; lra | right; lra]).
Qed.

(** Every reading is counted in exactly one bar or, when it is in no zone,
    in none. *)
Lemma zone_counts_total (bpm : list Q) :
  (zone_counts bpm).*1 = hr_labels
  ∧ (sum_list (zone_counts bpm).*2
     + length (filter (λ x, hr_zone x = None) bpm))%nat
    = length bpm.
Proof.
  unfold zone_counts. split; [apply value_counts_labels|].
  induction bpm as [|x bpm IH].
  - by vm_compute.
  - rewrite fmap_cons, value_counts_cons, filter_cons.
    destruct (hr_zone x) as [l|] eqn:Hz.
    + rewrite (hr_label_once l) by (by apply (cut_label hr_bins _ x)).
      rewrite decide_False by done. cbn [length]. lia.
    + rewrite decide_True by done.
      replace (length (filter (λ l, None = Some l) hr_labels)) with 0%nat
        by (by vm_compute).
      cbn [length]. lia.
Qed.

(** X21: with a readable heart rate column, also one without rows, the
    trainer's chart has the five bars Z1 to Z5 in that order; every reading
    is counted in exactly one bar or, when it is in no zone, in none, so
    the bars and the readings without a zone add up to the number of
    readings. *)
Theorem trainer_zones_chart (tb : Table) (s : list Q) :
  getitem tb "bpm" = inr s →
  ∃ bars,
    trainer_zones (Some tb) = inr [w_bar_chart "Heart Rate Zones" bars]
    ∧ bars.*1 = hr_labels
    ∧ (sum_list bars.*2 + length (filter (λ x, hr_zone x = None) s))%nat
      = length s.
Proof.
  intros Hs. exists (zone_counts s).
  split; [unfold trainer_zones; by rewrite Hs|].
  apply zone_counts_total.
Qed.

(** * The further properties at the sample data *)

(** A window that the validator accepts, and an athlete's view that
    raises: the energy frame has scores on the first and on the last day of
    the month only. *)
Example athlete_view_raises :
  validate (mkWindow jan10 jan20) (Some (mkBounds jan01 jan31)) = Some Ok
  ∧ athlete_metrics (table_filter_dates (Some sample_energy) jan10 jan20)
      None None
    = inl IndexError.
Proof. split; reflexivity. Qed.

Example sample_zone_counts :
  trainer_zones (Some sample_bpm)
  = inr [w_bar_chart "Heart Rate Zones"
           [("Z1", 2); ("Z2", 0); ("Z3", 0); ("Z4", 0); ("Z5", 1)]%nat].
Proof. reflexivity. Qed.

Lemma bounds_order_independent_witness :
  get_available_date_range [Some sample_heart; Some sample_sleep]
  = get_available_date_range [Some sample_sleep; Some sample_heart].
Proof.
  apply (bounds_order_independent
           [Some sample_heart; Some sample_sleep]
           [Some sample_sleep; Some sample_heart]).
  - naive_zone.
  - apply perm_swap.
Defined.

Lemma bounds_paired_and_ordered_witness :
  get_available_date_range [Some sample_heart; None; Some sample_sleep]
    = inr (None, None)
  ∨ ∃ mn mx : Date,
      get_available_date_range [Some sample_heart; None; Some sample_sleep]
        = inr (Some mn, Some mx)
      ∧ mn ≤ mx.
Proof.
  apply (bounds_paired_and_ordered
           [Some sample_heart; None; Some sample_sleep]).
  naive_zone.
Defined.

Lemma bounds_ignore_no_data_witness :
  get_available_date_range ([Some sample_heart] ++ Some [] :: [Some sample_sleep])
  = get_available_date_range ([Some sample_heart] ++ [Some sample_sleep]).
Proof.
  apply (bounds_ignore_no_data [Some sample_heart] (Some [])
           [Some sample_sleep]).
  right. reflexivity.
Defined.

Lemma bounds_widen_witness :
  ∃ mn' mx' : Date,
    get_available_date_range [None; Some sample_sleep; Some sample_heart]
      = inr (Some mn', Some mx')
    ∧ mn' ≤ jan01 ∧ jan31 ≤ mx'.
Proof.
  apply (bounds_widen [Some sample_heart]
           [None; Some sample_sleep; Some sample_heart]).
  - naive_zone.
  - intros d Hd. apply list_elem_of_singleton in Hd. subst d.
    right. right. left.
  - vm_compute. reflexivity.
Defined.

Lemma bounds_after_filter_witness :
  Z.max jan10 jan01 ≤ jan10 + 5
  ∧ jan10 + 5 ≤ jan10 + 5
  ∧ jan10 + 5 ≤ Z.min jan20 jan31.
Proof.
  apply (bounds_after_filter [Some sample_heart; Some sample_sleep]
           jan10 jan20 jan01 jan31 (jan10 + 5) (jan10 + 5)).
  - naive_zone.
  - vm_compute. reflexivity.
  - vm_compute. reflexivity.
Defined.

Lemma validate_date_range_within_bounds_witness :
  run (validate_date_range jan10 jan20 (Some jan01) (Some jan31))
  = if jan10 >? jan20 then (Returned false, [st_error start_after_end_msg])
    else (Returned true, []).
Proof.
  apply (validate_date_range_within_bounds jan10 jan20 jan01 jan31).
  - unfold jan01, jan10, jan31. lia.
  - unfold jan01, jan20, jan31. lia.
Defined.

Lemma filter_dates_inverted_witness :
  filter_dates (Some sample_heart) jan20 jan10 = Some [].
Proof.
  apply (filter_dates_inverted sample_heart jan20 jan10).
  reflexivity.
Defined.

Lemma filter_dates_adjacent_witness :
  ∃ out1 out2 out,
    filter_dates (Some sample_heart) jan01 jan10 = Some out1
    ∧ filter_dates (Some sample_heart) (jan10 + 1) jan31 = Some out2
    ∧ filter_dates (Some sample_heart) jan01 jan31 = Some out
    ∧ out1 ++ out2 ≡ₚ out
    ∧ ∀ r, ¬ (r ∈ out1 ∧ r ∈ out2).
Proof.
  apply (filter_dates_adjacent sample_heart jan01 jan10 jan31).
  - unfold jan01, jan10. lia.
  - unfold jan10, jan31. lia.
Defined.

Lemma getitem_after_filter_witness :
  ∃ tb' s',
    table_filter_dates (Some sample_energy) jan10 jan31 = Some tb'
    ∧ columns tb' = columns sample_energy
    ∧ getitem tb' "energy_score" = inr s'
    ∧ s' `sublist_of` [72%Q; 61.5%Q].
Proof.
  apply (getitem_after_filter sample_energy "energy_score"
           [72%Q; 61.5%Q] jan10 jan31).
  vm_compute. reflexivity.
Defined.

Lemma athlete_metrics_empty_source_witness :
  ∃ err,
    athlete_metrics (Some sample_energy)
      (Some (mkTable ["timestamp"; "calories"] [])) None
    = inl err.
Proof.
  apply (athlete_metrics_empty_source (Some sample_energy)
           (Some (mkTable ["timestamp"; "calories"] [])) None
           ["timestamp"; "calories"]).
  right. left. reflexivity.
Defined.

Lemma athlete_metrics_window_without_energy_witness :
  athlete_metrics (table_filter_dates (Some sample_energy) jan10 jan20)
    (table_filter_dates None jan10 jan20)
    (table_filter_dates None jan10 jan20)
  = inl IndexError.
Proof.
  apply (athlete_metrics_window_without_energy sample_energy None None
           jan10 jan20).
  - apply (bool_decide_unpack _). vm_compute. exact I.
  - apply (bool_decide_unpack _). vm_compute. exact I.
Defined.

Lemma athlete_metrics_shape_witness :
  ∃ e c a : Z,
    [w_columns 3; w_metric 0 "Energy Score" 61; w_metric 1 "Calories" 0;
     w_metric 2 "Active Minutes" 0]
    = [w_columns 3; w_metric 0 "Energy Score" e;
       w_metric 1 "Calories" c; w_metric 2 "Active Minutes" a]
    ∧ shown_value (Some sample_energy) "energy_score" e
    ∧ shown_value None "calories" c
    ∧ shown_value None "active_minutes" a.
Proof.
  apply (athlete_metrics_shape (Some sample_energy) None None).
  vm_compute. reflexivity.
Defined.

Lemma doctor_spo2_alert_witness :
  (doctor_spo2 (Some sample_spo2) = inr [w_error low_spo2_msg]
   ∧ ∃ x, x ∈ [97%Q; 91.5%Q; 98%Q] ∧ (x < 92)%Q)
  ∨ (doctor_spo2 (Some sample_spo2) = inr []
     ∧ ∀ x, x ∈ [97%Q; 91.5%Q; 98%Q] → (92 <= x)%Q).
Proof.
  apply (doctor_spo2_alert sample_spo2 [97%Q; 91.5%Q; 98%Q]).
  vm_compute. reflexivity.
Defined.

Lemma trainer_zones_chart_witness :
  ∃ bars,
    trainer_zones (Some sample_bpm)
      = inr [w_bar_chart "Heart Rate Zones" bars]
    ∧ bars.*1 = hr_labels
    ∧ (sum_list bars.*2
       + length (filter (λ x, hr_zone x = None) [61%Q; 100%Q; 174%Q; 230%Q]))%nat
      = length [61%Q; 100%Q; 174%Q; 230%Q].
Proof.
  apply (trainer_zones_chart sample_bpm [61%Q; 100%Q; 174%Q; 230%Q]).
  vm_compute. reflexivity.
Defined.

Lemma main_outcomes_witness :
  match
    (run (main [Some sample_heart; None; Some sample_sleep] jan10 jan20)).1
  with
  | Raised _ => False
  | _ => True
  end.
Proof.
  pose proof (proj2 (main_outcomes
                       [Some sample_heart; None; Some sample_sleep]
                       jan10 jan20)) as Hzone.
  assert (one_zone [Some sample_heart; None; Some sample_sleep]) as Hz
    by naive_zone.
  specialize (Hzone Hz).
  destruct (run (main [Some sample_heart; None; Some sample_sleep]
                   jan10 jan20)).1 as [out| |err]; [exact I | exact I |].
  by apply (Hzone err).
Defined.
